(** * monta.models: decoding and encoding of Monta API payloads

    A shallow embedding of [src/monta/models.py].  Python values that reach
    the decoders are the values a JSON parser produces, plus [datetime]
    objects (which [_parse_datetime] accepts and hands back).  A Python
    call either returns or raises; this is the [result] monad below.  The
    decoders keep their Python names: [Currency.from_dict],
    [Charge.to_dict], [_parse_datetime], ... *)

From Stdlib Require Import ZArith Lia Bool List String Ascii PrimFloat Eqdep_dec.
Import ListNotations.
Local Open Scope string_scope.
Local Open Scope Z_scope.

(** ** Exceptions and results *)

(** The built-in exception classes that the module can raise.  [KeyError]
    carries the missing key, as Python's does. *)
Inductive exn : Type :=
| KeyError (key : string)
| AttributeError
| TypeError
| ValueError.

Inductive result (A : Type) : Type :=
| Ok (a : A)
| Raise (e : exn).
Arguments Ok {A} a.
Arguments Raise {A} e.

Definition bind {A B : Type} (r : result A) (k : A -> result B) : result B :=
  match r with
  | Ok a => k a
  | Raise e => Raise e
  end.

Notation "x <- r ;; k" := (bind r (fun x => k))
  (at level 61, r at next level, right associativity).

(** [try: body except (classes): handler]. *)
Definition try_except {A : Type} (body : result A) (classes : exn -> bool)
    (handler : result A) : result A :=
  match body with
  | Ok a => Ok a
  | Raise e => if classes e then handler else Raise e
  end.

Definition is_ok {A : Type} (r : result A) : bool :=
  match r with Ok _ => true | Raise _ => false end.

(** Evaluation of a list comprehension [[f(x) for x in l]]: elements are
    produced left to right and the first exception escapes. *)
Fixpoint comprehension {A B : Type} (f : A -> result B) (l : list A)
    : result (list B) :=
  match l with
  | [] => Ok []
  | x :: l' => y <- f x ;; ys <- comprehension f l' ;; Ok (y :: ys)
  end.

(** ** Decimal digits *)

Definition digit_char (d : Z) : ascii :=
  match d with
  | 0 => "0" | 1 => "1" | 2 => "2" | 3 => "3" | 4 => "4"
  | 5 => "5" | 6 => "6" | 7 => "7" | 8 => "8" | _ => "9"
  end%char.

Definition digit_val (c : ascii) : option Z :=
  let n := Z.of_nat (nat_of_ascii c) in
  if (48 <=? n) && (n <=? 57) then Some (n - 48) else None.

(** ["%0<w>d" % n] for [0 <= n < 10^w]. *)
Fixpoint pad (w : nat) (n : Z) : string :=
  match w with
  | O => ""
  | S w' => String (digit_char ((n / 10 ^ Z.of_nat w') mod 10)) (pad w' n)
  end.

(** Reads exactly [w] decimal digits in front of [s]. *)
Fixpoint read_digits (w : nat) (acc : Z) (s : string) : option (Z * string) :=
  match w with
  | O => Some (acc, s)
  | S w' =>
      match s with
      | String c s' =>
          match digit_val c with
          | Some d => read_digits w' (10 * acc + d) s'
          | None => None
          end
      | EmptyString => None
      end
  end.

(** ** [datetime.datetime] *)

Definition is_leap (y : Z) : bool :=
  (y mod 4 =? 0) && (negb (y mod 100 =? 0) || (y mod 400 =? 0)).

Definition days_in_month (y m : Z) : Z :=
  match m with
  | 2 => if is_leap y then 29 else 28
  | 4 | 6 | 9 | 11 => 30
  | _ => 31
  end.

(** The range checks of the [datetime] constructor. *)
Definition valid_fields (y mo d h mi s us : Z) : bool :=
  (1 <=? y) && (y <=? 9999) && (1 <=? mo) && (mo <=? 12) &&
  (1 <=? d) && (d <=? days_in_month y mo) &&
  (0 <=? h) && (h <=? 23) && (0 <=? mi) && (mi <=? 59) &&
  (0 <=? s) && (s <=? 59) && (0 <=? us) && (us <=? 999999).

Definition day_us : Z := 86400000000.

(** [tzinfo] is modelled by what the module observes of it: [None] for a
    naive datetime, otherwise the UTC offset in microseconds, which
    [datetime.timezone] keeps strictly between -24h and +24h. *)
Definition valid_tz (tz : option Z) : bool :=
  match tz with
  | None => true
  | Some off => (- day_us <? off) && (off <? day_us)
  end.

(** A datetime object: its fields always satisfy the constructor's checks. *)
Record datetime : Type := mk_datetime {
  year : Z; month : Z; day : Z;
  hour : Z; minute : Z; second : Z; microsecond : Z;
  tzinfo : option Z;
  fields_ok : valid_fields year month day hour minute second microsecond = true;
  tz_ok : valid_tz tzinfo = true
}.

(** [datetime(y, mo, d, h, mi, s, us, tzinfo)]: [None] stands for the
    [ValueError] of an out-of-range argument. *)
Definition new_datetime (y mo d h mi s us : Z) (tz : option Z) : option datetime :=
  (if valid_fields y mo d h mi s us as b
      return valid_fields y mo d h mi s us = b -> option datetime
   then fun Hf =>
     (if valid_tz tz as b return valid_tz tz = b -> option datetime
      then fun Ht => Some (mk_datetime y mo d h mi s us tz Hf Ht)
      else fun _ => None) eq_refl
   else fun _ => None) eq_refl.

Definition utc : Z := 0.

(** [dt.replace(tzinfo=timezone.utc)]. *)
Definition replace_tzinfo_utc (dt : datetime) : datetime :=
  mk_datetime (year dt) (month dt) (day dt) (hour dt) (minute dt) (second dt)
    (microsecond dt) (Some utc) (fields_ok dt) eq_refl.

Definition aware (dt : datetime) : bool :=
  match tzinfo dt with Some _ => true | None => false end.

(** *** [datetime.isoformat()] *)

Definition format_time (h mi s us : Z) : string :=
  pad 2 h ++ ":" ++ pad 2 mi ++ ":" ++ pad 2 s ++
  (if us =? 0 then "" else "." ++ pad 6 us).

Definition format_offset (tz : option Z) : string :=
  match tz with
  | None => ""
  | Some off =>
      let sign := if off <? 0 then "-" else "+" in
      let a := Z.abs off in
      let hh := a / 3600000000 in
      let mm := (a / 60000000) mod 60 in
      let ss := (a / 1000000) mod 60 in
      let us := a mod 1000000 in
      sign ++ pad 2 hh ++ ":" ++ pad 2 mm ++
      (if (ss =? 0) && (us =? 0) then ""
       else ":" ++ pad 2 ss ++ (if us =? 0 then "" else "." ++ pad 6 us))
  end.

Definition isoformat (dt : datetime) : string :=
  pad 4 (year dt) ++ "-" ++ pad 2 (month dt) ++ "-" ++ pad 2 (day dt) ++ "T" ++
  format_time (hour dt) (minute dt) (second dt) (microsecond dt) ++
  format_offset (tzinfo dt).

(** *** [datetime.fromisoformat()]

    The library function is not part of the repository.  It is modelled
    after the implementation that CPython 3.11 runs (the C accelerator
    [_datetimemodule.c]), function by function.  That parser works on the
    UTF-8 bytes of the string, which end with a NUL byte; a pointer into
    the buffer is modelled by the bytes that remain, and a length by a
    number.  Every rejected string raises [ValueError].  Strings are
    sequences of code points below 256. *)

Notation "'let?' p := o 'in' k" :=
  (match o with Some p => k | None => None end)
  (at level 10, p pattern, o at level 100, k at level 200).

Definition NUL : ascii := "000"%char.

(** [PyUnicode_AsUTF8]: a code point from 128 on takes two bytes. *)
Fixpoint utf8 (s : string) : string :=
  match s with
  | EmptyString => EmptyString
  | String c r =>
      let n := nat_of_ascii c in
      if (n <? 128)%nat then String c (utf8 r)
      else String (ascii_of_nat (192 + n / 64))
             (String (ascii_of_nat (128 + n mod 64)) (utf8 r))
  end.

(** [*p], [p + 1] and [p + n]; past the bytes there is the NUL. *)
Definition peek (p : string) : ascii :=
  match p with
  | String c _ => c
  | EmptyString => NUL
  end.

Definition advance (p : string) : string :=
  match p with
  | String _ r => r
  | EmptyString => EmptyString
  end.

Fixpoint drop (n : nat) (p : string) : string :=
  match n with
  | O => p
  | S n' => drop n' (advance p)
  end.

Definition char_at (i : nat) (p : string) : ascii := peek (drop i p).

Definition is_digit (c : ascii) : bool :=
  match digit_val c with
  | Some _ => true
  | None => false
  end.

Fixpoint count_digits (p : string) : nat :=
  match p with
  | String c r => if is_digit c then S (count_digits r) else O
  | EmptyString => O
  end.

Fixpoint skip_digits (p : string) : string :=
  match p with
  | String c r => if is_digit c then skip_digits r else p
  | EmptyString => EmptyString
  end.

(** Where the date ends, read off the characters at 4, 5, 8 and 10:
    [YYYY-MM-DD] (10), [YYYYMMDD] (8), [YYYY-Www] (8), [YYYYWww] (7),
    [YYYY-Www-d] (10), [YYYYWwwd] (8). *)
Definition find_isoformat_datetime_separator (dtstr : string) (len : nat)
    : option nat :=
  if (len =? 7)%nat then Some 7%nat
  else if (char_at 4 dtstr =? "-")%char then
    if (char_at 5 dtstr =? "W")%char then
      if (len <? 8)%nat then None
      else if (8 <? len)%nat && (char_at 8 dtstr =? "-")%char then
        if (len =? 9)%nat then None
        else if (10 <? len)%nat && is_digit (char_at 10 dtstr) then Some 8%nat
        else Some 10%nat
      else Some 8%nat
    else Some 10%nat
  else if (char_at 4 dtstr =? "W")%char then
    let idx := (7 + count_digits (drop 7 dtstr))%nat in
    if (idx <? 9)%nat then Some idx
    else if Nat.even idx then Some 7%nat
    else Some 8%nat
  else Some 8%nat.

(** The calendar arithmetic behind ISO week dates. *)
Definition days_before_year (year : Z) : Z :=
  let y := year - 1 in
  y * 365 + y / 4 - y / 100 + y / 400.

Definition days_before_month (year month : Z) : Z :=
  match month with
  | 1 => 0 | 2 => 31 | 3 => 59 | 4 => 90 | 5 => 120 | 6 => 151
  | 7 => 181 | 8 => 212 | 9 => 243 | 10 => 273 | 11 => 304 | _ => 334
  end + (if (2 <? month) && is_leap year then 1 else 0).

Definition ymd_to_ord (year month day : Z) : Z :=
  days_before_year year + days_before_month year month + day.

Definition DI400Y : Z := 146097.
Definition DI100Y : Z := 36524.
Definition DI4Y : Z := 1461.

Definition ord_to_ymd (ordinal : Z) : Z * Z * Z :=
  let n := ordinal - 1 in
  let n400 := n / DI400Y in
  let n := n mod DI400Y in
  let n100 := n / DI100Y in
  let n := n mod DI100Y in
  let n4 := n / DI4Y in
  let n := n mod DI4Y in
  let n1 := n / 365 in
  let n := n mod 365 in
  let year := n400 * 400 + 1 + n100 * 100 + n4 * 4 + n1 in
  if (n1 =? 4) || (n100 =? 4) then (year - 1, 12, 31)
  else
    let leapyear := (n1 =? 3) && (negb (n4 =? 24) || (n100 =? 3)) in
    let month := Z.shiftr (n + 50) 5 in
    let preceding :=
      days_before_month 1 month + (if (2 <? month) && leapyear then 1 else 0) in
    if n <? preceding
    then (year, month - 1, n - (preceding - days_in_month year (month - 1)) + 1)
    else (year, month, n - preceding + 1).

Definition iso_week1_monday (year : Z) : Z :=
  let first_day := ymd_to_ord year 1 1 in
  let first_weekday := (first_day + 6) mod 7 in
  let week1_monday := first_day - first_weekday in
  if 3 <? first_weekday then week1_monday + 7 else week1_monday.

Definition iso_to_ymd (iso_year iso_week iso_day : Z) : option (Z * Z * Z) :=
  if (iso_year <? 1) || (9999 <? iso_year) then None
  else
    let out_of_range :=
      if (iso_week <=? 0) || (53 <=? iso_week) then
        if iso_week =? 53 then
          let first_weekday := (ymd_to_ord iso_year 1 1 + 6) mod 7 in
          negb ((first_weekday =? 3) || ((first_weekday =? 2) && is_leap iso_year))
        else true
      else false in
    if out_of_range then None
    else if (iso_day <=? 0) || (8 <=? iso_day) then None
    else
      Some (ord_to_ymd (iso_week1_monday iso_year + (iso_week - 1) * 7 + iso_day - 1)).

Definition parse_isoformat_date (dtstr : string) (len : nat) : option (Z * Z * Z) :=
  let? (year, p) := read_digits 4 0 dtstr in
  let uses_separator := (peek p =? "-")%char in
  let p := if uses_separator then advance p else p in
  if (peek p =? "W")%char then
    let? (iso_week, p) := read_digits 2 0 (advance p) in
    let consumed := if uses_separator then 8%nat else 7%nat in
    if (consumed <? len)%nat then
      if uses_separator && negb (peek p =? "-")%char then None
      else
        let p := if uses_separator then advance p else p in
        let? (iso_day, _) := read_digits 1 0 p in
        iso_to_ymd year iso_week iso_day
    else iso_to_ymd year iso_week 1
  else
    let? (month, p) := read_digits 2 0 p in
    if uses_separator && negb (peek p =? "-")%char then None
    else
      let p := if uses_separator then advance p else p in
      let? (day, _) := read_digits 2 0 p in
      Some (year, month, day).

(** How one round of the loop over hour, minute and second ends. *)
Inductive round_end : Type :=
| Malformed
| Finished (rest : bool)
| Continue (p : string) (room : Z) (has_separator : bool)
| Break (p : string) (room : Z).

(** One round: two digits and the character after them.  [room] is the
    distance from [p] to the end of the component ([p_end - p]). *)
Definition parse_hh_mm_ss_round (first : bool) (has_separator : bool)
    (p : string) (room : Z) : option (Z * round_end) :=
  let? (v, p1) := read_digits 2 0 p in
  let c := peek p1 in
  let has_separator := if first then (c =? ":")%char else has_separator in
  Some (v,
        if room - 3 <=? 0 then Finished (negb (c =? NUL)%char)
        else if has_separator && (c =? ":")%char
        then Continue (advance p1) (room - 3) has_separator
        else if ((c =? ".") || (c =? ","))%char then Break (advance p1) (room - 3)
        else if negb has_separator then Continue p1 (room - 2) has_separator
        else Malformed).

(** The fraction: at most six digits count, the digits after them are
    skipped. *)
Definition parse_fraction (p : string) (room : Z) : option (bool * Z) :=
  let to_parse := Z.to_nat (Z.min room 6) in
  let? (v, p1) := read_digits to_parse 0 p in
  let microsecond := v * 10 ^ (6 - Z.of_nat to_parse) in
  Some (negb (peek (skip_digits p1) =? NUL)%char, microsecond).

(** [HH[:?MM[:?SS[{.,}f+]]]] in the [room] bytes at [p]; the boolean tells
    whether the parser stopped in front of a byte other than NUL. *)
Definition parse_hh_mm_ss_ff (p : string) (room : Z)
    : option (bool * (Z * Z * Z * Z)) :=
  let fraction p room h mi sec :=
    let? (rest, us) := parse_fraction p room in Some (rest, (h, mi, sec, us)) in
  let? (h, e0) := parse_hh_mm_ss_round true true p room in
  match e0 with
  | Malformed => None
  | Finished rest => Some (rest, (h, 0, 0, 0))
  | Break p room => fraction p room h 0 0
  | Continue p room has_separator =>
      let? (mi, e1) := parse_hh_mm_ss_round false has_separator p room in
      match e1 with
      | Malformed => None
      | Finished rest => Some (rest, (h, mi, 0, 0))
      | Break p room => fraction p room h mi 0
      | Continue p room has_separator =>
          let? (sec, e2) := parse_hh_mm_ss_round false has_separator p room in
          match e2 with
          | Malformed => None
          | Finished rest => Some (rest, (h, mi, sec, 0))
          | Break p room | Continue p room _ => fraction p room h mi sec
          end
      end
  end.

Definition is_tz_char (c : ascii) : bool :=
  ((c =? "Z") || (c =? "+") || (c =? "-"))%char.

(** The index of the first [Z], [+] or [-], or the length. *)
Fixpoint find_tzinfo (p : string) : nat :=
  match p with
  | String c r => if is_tz_char c then O else S (find_tzinfo r)
  | EmptyString => O
  end.

(** The time of day, and the offset as whole seconds and microseconds. *)
Definition parse_isoformat_time (p : string) (len : nat)
    : option (Z * Z * Z * Z * option (Z * Z)) :=
  let tzinfo_pos := find_tzinfo p in
  let? (rest, (h, mi, sec, us)) := parse_hh_mm_ss_ff p (Z.of_nat tzinfo_pos) in
  if (tzinfo_pos =? len)%nat then
    if rest then None else Some (h, mi, sec, us, None)
  else
    let c := char_at tzinfo_pos p in
    let tzstr := drop (S tzinfo_pos) p in
    if (c =? "Z")%char then
      if (peek tzstr =? NUL)%char then Some (h, mi, sec, us, Some (0, 0)) else None
    else
      let tzsign := if (c =? "-")%char then -1 else 1 in
      match parse_hh_mm_ss_ff tzstr (Z.of_nat (len - S tzinfo_pos)) with
      | Some (false, (th, tm, ts, tus)) =>
          Some (h, mi, sec, us,
                Some (tzsign * (th * 3600 + tm * 60 + ts), tzsign * tus))
      | _ => None
      end.

(** The offset in microseconds: UTC whenever the whole seconds are zero. *)
Definition tzinfo_from_isoformat_results (tz : option (Z * Z)) : option Z :=
  match tz with
  | None => None
  | Some (tzoffset, tz_useconds) =>
      if tzoffset =? 0 then Some utc
      else Some (tzoffset * 1000000 + tz_useconds)
  end.

(** The bytes after the separator, which may be a multi-byte character. *)
Definition skip_separator (p : string) : string :=
  let b := Z.of_nat (nat_of_ascii (peek p)) in
  if Z.land b 128 =? 0 then drop 1 p
  else if Z.land b 240 =? 224 then drop 3 p
  else if Z.land b 240 =? 240 then drop 4 p
  else drop 2 p.

(** The fields that the string spells, before the objects are built. *)
Definition parse_isoformat_datetime (date_string : string)
    : option (Z * Z * Z * (Z * Z * Z * Z * option (Z * Z))) :=
  let dt_ptr := utf8 date_string in
  let len := String.length dt_ptr in
  if (len <? 7)%nat then None
  else
    let? separator_location := find_isoformat_datetime_separator dt_ptr len in
    let? date := parse_isoformat_date dt_ptr separator_location in
    if (separator_location <? len)%nat then
      let p := skip_separator (drop separator_location dt_ptr) in
      let? time := parse_isoformat_time p (String.length p) in
      Some (date, time)
    else Some (date, (0, 0, 0, 0, None)).

Definition fromisoformat (date_string : string) : result datetime :=
  match
    (let? (y, mo, d, (h, mi, sec, us, tz)) := parse_isoformat_datetime date_string in
     new_datetime y mo d h mi sec us (tzinfo_from_isoformat_results tz))
  with
  | Some dt => Ok dt
  | None => Raise ValueError
  end.

(** What [_parse_datetime] makes of a parsed datetime: one without offset
    is stamped as UTC. *)
Definition stamp_utc (dt : datetime) : datetime :=
  match tzinfo dt with
  | None => replace_tzinfo_utc dt
  | Some _ => dt
  end.

(** What [fromisoformat] reads back from [isoformat dt]: an offset below
    one second comes back as UTC. *)
Definition read_back (dt : datetime) : datetime :=
  match tzinfo dt with
  | Some off => if Z.abs off <? 1000000 then replace_tzinfo_utc dt else dt
  | None => dt
  end.

(** What [_parse_datetime] reads back from [isoformat dt]. *)
Definition restamped (dt : datetime) : datetime := stamp_utc (read_back dt).

Definition restamped_opt (o : option datetime) : option datetime :=
  option_map restamped o.

(** Timezone-aware with an offset of zero or of at least one second. *)
Definition stable (dt : datetime) : bool :=
  match tzinfo dt with
  | Some off => (off =? 0) || (1000000 <=? Z.abs off)
  | None => false
  end.

Definition stable_opt (o : option datetime) : bool :=
  match o with
  | Some dt => stable dt
  | None => true
  end.

(** The offset as [parse_isoformat_time] returns it for what
    [format_offset] wrote. *)
Definition raw_offset (tz : option Z) : option (Z * Z) :=
  match tz with
  | None => None
  | Some off =>
      let sign := if off <? 0 then -1 else 1 in
      Some (sign * (Z.abs off / 1000000), sign * (Z.abs off mod 1000000))
  end.

Definition aware_opt (o : option datetime) : bool :=
  match o with
  | Some dt => aware dt
  | None => true
  end.

(** 2024-01-15 10:30:00, as a UTC instant and as a naive datetime. *)
Definition jan15_utc : datetime :=
  mk_datetime 2024 1 15 10 30 0 0 (Some utc) eq_refl eq_refl.

Definition jan15_naive : datetime :=
  mk_datetime 2024 1 15 10 30 0 0 None eq_refl eq_refl.

(** ** Python values *)

(** What [json.loads] produces, and datetime objects.  A dict is kept as
    its items in insertion order; keys are strings. *)
#[warnings="-register-all"]
Inductive pyval : Type :=
| PNone
| PBool (b : bool)
| PInt (n : Z)
| PFloat (x : float)
| PStr (s : string)
| PList (l : list pyval)
| PDict (items : list (string * pyval))
| PDatetime (dt : datetime).

Definition dict : Type := list (string * pyval).

(** [bool(v)]. *)
Definition truthy (v : pyval) : bool :=
  match v with
  | PNone => false
  | PBool b => b
  | PInt n => negb (n =? 0)
  | PFloat x => negb (PrimFloat.eqb x 0%float)
  | PStr s => negb (s =? "")%string
  | PList l => match l with [] => false | _ => true end
  | PDict d => match d with [] => false | _ => true end
  | PDatetime _ => true
  end.

Fixpoint dict_lookup (k : string) (d : dict) : option pyval :=
  match d with
  | [] => None
  | (k', v) :: d' => if (k =? k')%string then Some v else dict_lookup k d'
  end.

Fixpoint dict_remove (k : string) (d : dict) : dict :=
  match d with
  | [] => []
  | (k', v) :: d' =>
      if (k =? k')%string then dict_remove k d' else (k', v) :: dict_remove k d'
  end.

(** [data[k]]: only a dict can be indexed by a string. *)
Definition getitem (data : pyval) (k : string) : result pyval :=
  match data with
  | PDict d =>
      match dict_lookup k d with
      | Some v => Ok v
      | None => Raise (KeyError k)
      end
  | _ => Raise TypeError
  end.

(** [data.get(k, default)]: of the values above only a dict has [get]. *)
Definition get (data : pyval) (k : string) (default : pyval) : result pyval :=
  match data with
  | PDict d =>
      match dict_lookup k d with
      | Some v => Ok v
      | None => Ok default
      end
  | _ => Raise AttributeError
  end.

(** [iter(v)]: a list yields its elements, a dict its keys, a string its
    characters; the other values are not iterable. *)
Fixpoint chars (s : string) : list pyval :=
  match s with
  | EmptyString => []
  | String c s' => PStr (String c EmptyString) :: chars s'
  end.

Definition iterate (v : pyval) : result (list pyval) :=
  match v with
  | PList l => Ok l
  | PDict d => Ok (map (fun kv => PStr (fst kv)) d)
  | PStr s => Ok (chars s)
  | _ => Raise TypeError
  end.

(** [s.replace(old, new)] for a one-character [old]. *)
Fixpoint str_replace (s : string) (old : ascii) (new : string) : string :=
  match s with
  | EmptyString => EmptyString
  | String c s' =>
      if (c =? old)%char then new ++ str_replace s' old new
      else String c (str_replace s' old new)
  end.

(** [v.replace('Z', '+00:00')] as the module calls it: a string has the
    method above; a datetime has a [replace] that rejects these arguments;
    the other values have no such attribute. *)
Definition call_replace (v : pyval) (old : ascii) (new : string) : result string :=
  match v with
  | PStr s => Ok (str_replace s old new)
  | PDatetime _ => Raise TypeError
  | _ => Raise AttributeError
  end.

(** ** [_parse_datetime] *)

Definition _parse_datetime (date_string : pyval) : result (option datetime) :=
  if negb (truthy date_string) then Ok None
  else
    match date_string with
    | PDatetime dt => Ok (Some dt)
    | _ =>
        try_except
          (s <- call_replace date_string "Z" "+00:00" ;;
           dt <- fromisoformat s ;;
           Ok (Some (match tzinfo dt with
                     | None => replace_tzinfo_utc dt
                     | Some _ => dt
                     end)))
          (fun e => match e with
                    | ValueError | AttributeError => true
                    | _ => false
                    end)
          (Ok None)
    end.

(** ** Vocabulary of the statements *)

Definition dict_get (k : string) (default : pyval) (d : dict) : pyval :=
  match dict_lookup k d with
  | Some v => v
  | None => default
  end.

Definition has_key (k : string) (d : dict) : bool :=
  match dict_lookup k d with
  | Some _ => true
  | None => false
  end.

(** The call failed with the missing-field error for key [k]. *)
Definition missing_field {A : Type} (k : string) (r : result A) : bool :=
  match r with
  | Raise (KeyError k') => (k =? k')%string
  | _ => false
  end.

Definition is_mapping (v : pyval) : bool :=
  match v with
  | PDict _ => true
  | _ => false
  end.

(** Sources that the value-object decoders accept: a false value ([None],
    an empty mapping, ...) or a mapping. *)
Definition value_object_source (v : pyval) : bool :=
  negb (truthy v) || is_mapping v.

Definition is_str (v : pyval) : bool :=
  match v with
  | PStr _ => true
  | _ => false
  end.

Definition is_datetime (v : pyval) : bool :=
  match v with
  | PDatetime _ => true
  | _ => false
  end.

(** The result of the normalizer, which never raises. *)
Definition parsed (v : pyval) : option datetime :=
  match _parse_datetime v with
  | Ok o => o
  | Raise _ => None
  end.

(** ** Value objects *)

(** Record fields hold whatever the mapping held: [from_dict] copies the
    values without checking them against the annotated types. *)

Module Currency.
Record t : Type := mk {
  identifier : pyval;
  name : pyval;
  decimals : pyval
}.

Definition from_dict (data : pyval) : result (option t) :=
  if negb (truthy data) then Ok None
  else
    identifier <- get data "identifier" (PStr "") ;;
    name <- get data "name" (PStr "") ;;
    decimals <- get data "decimals" (PInt 2) ;;
    Ok (Some (mk identifier name decimals)).
End Currency.

Module Balance.
Record t : Type := mk {
  amount : pyval;
  credit : pyval
}.

Definition from_dict (data : pyval) : result (option t) :=
  if negb (truthy data) then Ok None
  else
    amount <- get data "amount" (PFloat 0) ;;
    credit <- get data "credit" (PFloat 0) ;;
    Ok (Some (mk amount credit)).
End Balance.

(** ** Entities *)

Module Wallet.
Record t : Type := mk {
  id : pyval;
  owner_type : pyval;
  balance : option Balance.t;
  currency : option Currency.t;
  status : pyval
}.

Definition from_dict (data : pyval) : result t :=
  id <- get data "id" (PInt 0) ;;
  owner_type <- get data "ownerType" (PStr "") ;;
  balance_data <- get data "balance" PNone ;;
  balance <- Balance.from_dict balance_data ;;
  currency_data <- get data "currency" PNone ;;
  currency <- Currency.from_dict currency_data ;;
  status <- get data "status" (PStr "") ;;
  Ok (mk id owner_type balance currency status).
End Wallet.

(** [dt.isoformat() if dt else None]: a datetime object is always true. *)
Definition isoformat_or_none (o : option datetime) : pyval :=
  match o with
  | Some dt => PStr (isoformat dt)
  | None => PNone
  end.

(** [_parse_datetime(data.get(k))]. *)
Definition get_datetime (data : pyval) (k : string) : result (option datetime) :=
  v <- get data k PNone ;; _parse_datetime v.

Module Charge.
Record t : Type := mk {
  id : pyval;
  state : pyval;
  created_at : option datetime;
  updated_at : option datetime;
  started_at : option datetime;
  stopped_at : option datetime;
  cable_plugged_in_at : option datetime;
  fully_charged_at : option datetime;
  failed_at : option datetime;
  timeout_at : option datetime
}.

Definition from_dict (data : pyval) : result t :=
  id <- getitem data "id" ;;
  state <- get data "state" (PStr "") ;;
  created_at <- get_datetime data "createdAt" ;;
  updated_at <- get_datetime data "updatedAt" ;;
  started_at <- get_datetime data "startedAt" ;;
  stopped_at <- get_datetime data "stoppedAt" ;;
  cable_plugged_in_at <- get_datetime data "cablePluggedInAt" ;;
  fully_charged_at <- get_datetime data "fullyChargedAt" ;;
  failed_at <- get_datetime data "failedAt" ;;
  timeout_at <- get_datetime data "timeoutAt" ;;
  Ok (mk id state created_at updated_at started_at stopped_at
        cable_plugged_in_at fully_charged_at failed_at timeout_at).

Definition to_dict (self : t) : pyval :=
  PDict
    [ ("id", id self);
      ("state", state self);
      ("createdAt", isoformat_or_none (created_at self));
      ("updatedAt", isoformat_or_none (updated_at self));
      ("startedAt", isoformat_or_none (started_at self));
      ("stoppedAt", isoformat_or_none (stopped_at self));
      ("cablePluggedInAt", isoformat_or_none (cable_plugged_in_at self));
      ("fullyChargedAt", isoformat_or_none (fully_charged_at self));
      ("failedAt", isoformat_or_none (failed_at self));
      ("timeoutAt", isoformat_or_none (timeout_at self)) ].

(** [self] as it comes back from [to_dict] and [from_dict]. *)
Definition restamped (self : t) : t :=
  mk (id self) (state self)
     (restamped_opt (created_at self)) (restamped_opt (updated_at self))
     (restamped_opt (started_at self)) (restamped_opt (stopped_at self))
     (restamped_opt (cable_plugged_in_at self))
     (restamped_opt (fully_charged_at self))
     (restamped_opt (failed_at self)) (restamped_opt (timeout_at self)).

Definition all_stable (self : t) : bool :=
  stable_opt (created_at self) && stable_opt (updated_at self) &&
  stable_opt (started_at self) && stable_opt (stopped_at self) &&
  stable_opt (cable_plugged_in_at self) && stable_opt (fully_charged_at self) &&
  stable_opt (failed_at self) && stable_opt (timeout_at self).

Definition all_aware (self : t) : bool :=
  aware_opt (created_at self) && aware_opt (updated_at self) &&
  aware_opt (started_at self) && aware_opt (stopped_at self) &&
  aware_opt (cable_plugged_in_at self) && aware_opt (fully_charged_at self) &&
  aware_opt (failed_at self) && aware_opt (timeout_at self).
End Charge.

Module ChargePoint.
Record t : Type := mk {
  id : pyval;
  name : pyval;
  serial_number : pyval;
  type : pyval;
  state : pyval;
  visibility : pyval;
  last_meter_reading_kwh : pyval;
  brand_name : pyval;
  model_name : pyval;
  firmware_version : pyval;
  cable_plugged_in : pyval;
  charges : list Charge.t
}.

Definition from_dict (data : pyval) : result t :=
  charges_data <- get data "charges" (PList []) ;;
  charges <-
    (if truthy charges_data
     then items <- iterate charges_data ;; comprehension Charge.from_dict items
     else Ok []) ;;
  id <- getitem data "id" ;;
  name <- get data "name" (PStr "") ;;
  serial_number <- get data "serialNumber" PNone ;;
  type <- get data "type" (PStr "") ;;
  state <- get data "state" (PStr "") ;;
  visibility <- get data "visibility" (PStr "") ;;
  last_meter_reading_kwh <- get data "lastMeterReadingKwh" (PFloat 0) ;;
  brand_name <- get data "brandName" (PStr "") ;;
  model_name <- get data "modelName" (PStr "") ;;
  firmware_version <- get data "firmwareVersion" (PStr "") ;;
  cable_plugged_in <- get data "cablePluggedIn" (PBool false) ;;
  Ok (mk id name serial_number type state visibility last_meter_reading_kwh
        brand_name model_name firmware_version cable_plugged_in charges).
End ChargePoint.

(** [Currency.from_dict(data.get(k))]. *)
Definition get_currency (data : pyval) (k : string) : result (option Currency.t) :=
  v <- get data k PNone ;; Currency.from_dict v.

(** The dict literal [to_dict] writes for a currency; a dataclass instance
    is always true, so only [None] takes the other branch. *)
Definition currency_or_none (o : option Currency.t) : pyval :=
  match o with
  | Some c =>
      PDict [ ("identifier", Currency.identifier c);
              ("name", Currency.name c);
              ("decimals", Currency.decimals c) ]
  | None => PNone
  end.

Module WalletTransaction.
Record t : Type := mk {
  id : pyval;
  state : pyval;
  summary : pyval;
  from_amount : pyval;
  from_currency : option Currency.t;
  to_amount : pyval;
  to_currency : option Currency.t;
  exchange_rate : pyval;
  note : pyval;
  from_wallet_id : pyval;
  to_wallet_id : pyval;
  charge_id : pyval;
  created_at : option datetime;
  updated_at : option datetime;
  completed_at : option datetime
}.

Definition from_dict (data : pyval) : result t :=
  id <- getitem data "id" ;;
  state <- get data "state" (PStr "") ;;
  summary <- get data "summary" (PStr "") ;;
  note <- get data "note" PNone ;;
  from_amount <- get data "fromAmount" (PFloat 0) ;;
  from_currency <- get_currency data "fromCurrency" ;;
  from_wallet_id <- get data "fromWalletId" PNone ;;
  to_amount <- get data "toAmount" (PFloat 0) ;;
  to_currency <- get_currency data "toCurrency" ;;
  to_wallet_id <- get data "toWalletId" PNone ;;
  charge_id <- get data "chargeId" PNone ;;
  exchange_rate <- get data "exchangeRate" (PFloat 1) ;;
  created_at <- get_datetime data "createdAt" ;;
  updated_at <- get_datetime data "updatedAt" ;;
  completed_at <- get_datetime data "completedAt" ;;
  Ok (mk id state summary from_amount from_currency to_amount to_currency
        exchange_rate note from_wallet_id to_wallet_id charge_id
        created_at updated_at completed_at).

Definition to_dict (self : t) : pyval :=
  PDict
    [ ("id", id self);
      ("state", state self);
      ("summary", summary self);
      ("note", note self);
      ("fromAmount", from_amount self);
      ("fromCurrency", currency_or_none (from_currency self));
      ("fromWalletId", from_wallet_id self);
      ("toAmount", to_amount self);
      ("toCurrency", currency_or_none (to_currency self));
      ("toWalletId", to_wallet_id self);
      ("chargeId", charge_id self);
      ("exchangeRate", exchange_rate self);
      ("createdAt", isoformat_or_none (created_at self));
      ("updatedAt", isoformat_or_none (updated_at self));
      ("completedAt", isoformat_or_none (completed_at self)) ].

(** [self] as it comes back from [to_dict] and [from_dict]. *)
Definition restamped (self : t) : t :=
  mk (id self) (state self) (summary self) (from_amount self)
     (from_currency self) (to_amount self) (to_currency self)
     (exchange_rate self) (note self) (from_wallet_id self)
     (to_wallet_id self) (charge_id self)
     (restamped_opt (created_at self)) (restamped_opt (updated_at self))
     (restamped_opt (completed_at self)).

Definition all_stable (self : t) : bool :=
  stable_opt (created_at self) && stable_opt (updated_at self) &&
  stable_opt (completed_at self).

Definition all_aware (self : t) : bool :=
  aware_opt (created_at self) && aware_opt (updated_at self) &&
  aware_opt (completed_at self).
End WalletTransaction.

Module TokenResponse.
(** The class annotates both expiration dates as [datetime]; [from_dict]
    stores what [_parse_datetime] returns, which may be [None]. *)
Record t : Type := mk {
  access_token : pyval;
  access_token_expiration_date : option datetime;
  refresh_token : pyval;
  refresh_token_expiration_date : option datetime;
  user_id : pyval
}.

Definition from_dict (data : pyval) : result t :=
  access_token <- getitem data "accessToken" ;;
  access_exp_data <- getitem data "accessTokenExpirationDate" ;;
  access_token_expiration_date <- _parse_datetime access_exp_data ;;
  refresh_token <- getitem data "refreshToken" ;;
  refresh_exp_data <- getitem data "refreshTokenExpirationDate" ;;
  refresh_token_expiration_date <- _parse_datetime refresh_exp_data ;;
  user_id <- get data "userId" PNone ;;
  Ok (mk access_token access_token_expiration_date refresh_token
        refresh_token_expiration_date user_id).
End TokenResponse.

(** The charges that [ChargePoint.from_dict] decodes before it reads any
    other key. *)
Definition charges_of (d : dict) : result (list Charge.t) :=
  let charges_data := dict_get "charges" (PList []) d in
  if truthy charges_data
  then items <- iterate charges_data ;; comprehension Charge.from_dict items
  else Ok [].

(** The "charges" value of [d] is the list of the mappings [ms], or it is
    absent or false and [ms] is empty. *)
Definition charges_are (d : dict) (ms : list dict) : Prop :=
  dict_lookup "charges" d = Some (PList (map PDict ms)) \/
  (ms = [] /\ truthy (dict_get "charges" (PList []) d) = false).

(** ** Enumerations *)

(** Both classes are [str] enumerations: a member is looked up by its
    value with [ChargeState(value)], which raises [ValueError] when no
    member has it. *)

Module ChargeState.
Inductive t : Type :=
| RESERVED | STARTING | CHARGING | STOPPING
| PAUSED | SCHEDULED | STOPPED | COMPLETED.

Definition value (m : t) : string :=
  match m with
  | RESERVED => "reserved"
  | STARTING => "starting"
  | CHARGING => "charging"
  | STOPPING => "stopping"
  | PAUSED => "paused"
  | SCHEDULED => "scheduled"
  | STOPPED => "stopped"
  | COMPLETED => "completed"
  end.

Definition members : list t :=
  [RESERVED; STARTING; CHARGING; STOPPING; PAUSED; SCHEDULED; STOPPED; COMPLETED].

Definition of_value (v : string) : result t :=
  match find (fun m => (value m =? v)%string) members with
  | Some m => Ok m
  | None => Raise ValueError
  end.
End ChargeState.

Module WalletTransactionState.
Inductive t : Type :=
| COMPLETE | PENDING | FAILED | RESERVED.

Definition value (m : t) : string :=
  match m with
  | COMPLETE => "complete"
  | PENDING => "pending"
  | FAILED => "failed"
  | RESERVED => "reserved"
  end.

Definition members : list t := [COMPLETE; PENDING; FAILED; RESERVED].

Definition of_value (v : string) : result t :=
  match find (fun m => (value m =? v)%string) members with
  | Some m => Ok m
  | None => Raise ValueError
  end.
End WalletTransactionState.

(** ** Keys that the decoders read *)

Definition instant_keys_of_Charge : list string :=
  ["createdAt"; "updatedAt"; "startedAt"; "stoppedAt"; "cablePluggedInAt";
   "fullyChargedAt"; "failedAt"; "timeoutAt"].

Definition instant_keys_of_WalletTransaction : list string :=
  ["createdAt"; "updatedAt"; "completedAt"].

Definition keys_of_Wallet : list string :=
  ["id"; "ownerType"; "balance"; "currency"; "status"].

Definition keys_of_Charge : list string :=
  "id" :: "state" :: instant_keys_of_Charge.

Definition keys_of_ChargePoint : list string :=
  ["charges"; "id"; "name"; "serialNumber"; "type"; "state"; "visibility";
   "lastMeterReadingKwh"; "brandName"; "modelName"; "firmwareVersion";
   "cablePluggedIn"].

Definition keys_of_WalletTransaction : list string :=
  ["id"; "state"; "summary"; "note"; "fromAmount"; "fromCurrency";
   "fromWalletId"; "toAmount"; "toCurrency"; "toWalletId"; "chargeId";
   "exchangeRate"] ++ instant_keys_of_WalletTransaction.

Definition required_keys_of_TokenResponse : list string :=
  ["accessToken"; "accessTokenExpirationDate"; "refreshToken";
   "refreshTokenExpirationDate"].

Definition keys_of_TokenResponse : list string :=
  required_keys_of_TokenResponse ++ ["userId"].

Definition mentions (k : string) (keys : list string) : bool :=
  existsb (String.eqb k) keys.

(** None of the keys [ks] holds a datetime object in [d]. *)
Definition no_datetime_at (ks : list string) (d : dict) : bool :=
  forallb (fun k => negb (is_datetime (dict_get k PNone d))) ks.

(** The first of the keys [ks] that [d] lacks. *)
Fixpoint first_missing (ks : list string) (d : dict) : option string :=
  match ks with
  | [] => None
  | k :: ks' => if has_key k d then first_missing ks' d else Some k
  end.

Definition is_list (v : pyval) : bool :=
  match v with
  | PList _ => true
  | _ => false
  end.

(** The datetimes with the same date and time of day, whatever the offset. *)
Definition same_wall_clock (a b : datetime) : Prop :=
  year a = year b /\ month a = month b /\ day a = day b /\
  hour a = hour b /\ minute a = minute b /\ second a = second b /\
  microsecond a = microsecond b.

(** * Properties *)

(** ** Strings and digits *)

Lemma append_assoc (a b c : string) : ((a ++ b) ++ c = a ++ (b ++ c))%string.
Proof. induction a as [|x a IH]; simpl; [reflexivity | now rewrite IH]. Qed.

Lemma append_empty_r (a : string) : (a ++ "" = a)%string.
Proof. induction a as [|x a IH]; simpl; [reflexivity | now rewrite IH]. Qed.

Lemma digit_val_char (d : Z) : 0 <= d <= 9 -> digit_val (digit_char d) = Some d.
Proof.
  intros H.
  assert (d = 0 \/ d = 1 \/ d = 2 \/ d = 3 \/ d = 4 \/
          d = 5 \/ d = 6 \/ d = 7 \/ d = 8 \/ d = 9) as Hd by lia.
  repeat (destruct Hd as [-> | Hd]; [reflexivity |]).
  subst d; reflexivity.
Qed.

Lemma digit_char_not (c : ascii) (d : Z) :
  digit_val c = None -> (digit_char d =? c)%char = false.
Proof.
  intros Hc. apply Ascii.eqb_neq. intros <-.
  destruct d as [|p|p]; try discriminate.
  do 4 (destruct p as [p|p|]; try discriminate).
Qed.

Lemma read_digits_pad_mod (w : nat) : forall (n acc : Z) (r : string),
  read_digits w acc (pad w n ++ r) =
  Some (acc * 10 ^ Z.of_nat w + n mod 10 ^ Z.of_nat w, r).
Proof.
  induction w as [|w IH]; intros n acc r.
  - simpl. rewrite Z.mod_1_r. do 2 f_equal. lia.
  - rewrite Nat2Z.inj_succ, Z.pow_succ_r by lia.
    cbn [pad read_digits append].
    set (p := 10 ^ Z.of_nat w).
    assert (0 < p) by (apply Z.pow_pos_nonneg; lia).
    assert (Hq : 0 <= (n / p) mod 10 < 10) by (apply Z.mod_pos_bound; lia).
    rewrite digit_val_char by lia.
    rewrite IH. fold p. do 2 f_equal.
    rewrite (Z.mul_comm 10 p), Z.rem_mul_r by lia. lia.
Qed.

Lemma read_digits_pad (w : nat) (n acc : Z) (r : string) :
  0 <= n < 10 ^ Z.of_nat w ->
  read_digits w acc (pad w n ++ r) = Some (acc * 10 ^ Z.of_nat w + n, r).
Proof. intros Hn. rewrite read_digits_pad_mod, Z.mod_small by exact Hn. reflexivity. Qed.

Lemma read2_pad (n : Z) (r : string) :
  0 <= n < 100 -> read_digits 2 0 (pad 2 n ++ r) = Some (n, r).
Proof. intros Hn. rewrite read_digits_pad by (simpl; lia). reflexivity. Qed.

Lemma read4_pad (n : Z) (r : string) :
  0 <= n < 10000 -> read_digits 4 0 (pad 4 n ++ r) = Some (n, r).
Proof. intros Hn. rewrite read_digits_pad by (simpl; lia). reflexivity. Qed.

Lemma read6_pad (n : Z) (r : string) :
  0 <= n < 1000000 -> read_digits 6 0 (pad 6 n ++ r) = Some (n, r).
Proof. intros Hn. rewrite read_digits_pad by (simpl; lia). reflexivity. Qed.

Lemma length_pad (w : nat) (n : Z) : String.length (pad w n) = w.
Proof. induction w as [|w IH]; simpl; [reflexivity | now rewrite IH]. Qed.

Lemma length_append (a b : string) :
  String.length (a ++ b) = (String.length a + String.length b)%nat.
Proof. induction a as [|x a IH]; simpl; [reflexivity | now rewrite IH]. Qed.

(** Replacing a character that does not occur changes nothing. *)
Lemma str_replace_append (a b : string) (old : ascii) (new : string) :
  str_replace (a ++ b) old new = (str_replace a old new ++ str_replace b old new)%string.
Proof.
  induction a as [|x a IH]; simpl; [reflexivity |].
  destruct (x =? old)%char; simpl; rewrite IH; [now rewrite append_assoc | reflexivity].
Qed.

Lemma str_replace_pad (w : nat) (n : Z) (old : ascii) (new : string) :
  digit_val old = None -> str_replace (pad w n) old new = pad w n.
Proof.
  intros Hold. induction w as [|w IH]; simpl; [reflexivity |].
  rewrite digit_char_not by exact Hold. now rewrite IH.
Qed.

(** ** Datetime objects *)

Lemma datetime_ext (a b : datetime) :
  year a = year b -> month a = month b -> day a = day b ->
  hour a = hour b -> minute a = minute b -> second a = second b ->
  microsecond a = microsecond b -> tzinfo a = tzinfo b -> a = b.
Proof.
  destruct a as [y1 mo1 d1 h1 mi1 s1 us1 tz1 Hf1 Ht1].
  destruct b as [y2 mo2 d2 h2 mi2 s2 us2 tz2 Hf2 Ht2].
  simpl. intros; subst.
  f_equal; apply (UIP_dec Bool.bool_dec).
Qed.

Lemma if_true_dep (b : bool) (P : Type)
    (f : b = true -> P) (g : b = false -> P) (H : b = true) :
  (if b as b' return (b = b' -> P) then f else g) eq_refl = f H.
Proof.
  destruct b; [| discriminate].
  f_equal. symmetry. apply UIP_refl_bool.
Qed.

Lemma new_datetime_fields (dt : datetime) :
  new_datetime (year dt) (month dt) (day dt) (hour dt) (minute dt)
    (second dt) (microsecond dt) (tzinfo dt) = Some dt.
Proof.
  destruct dt as [y mo d h mi s us tz Hf Ht]. simpl.
  unfold new_datetime.
  rewrite (if_true_dep _ _ _ _ Hf).
  rewrite (if_true_dep _ _ _ _ Ht).
  reflexivity.
Qed.

Lemma fields_range (dt : datetime) :
  1 <= year dt <= 9999 /\ 1 <= month dt <= 12 /\ 1 <= day dt <= 31 /\
  0 <= hour dt <= 23 /\ 0 <= minute dt <= 59 /\ 0 <= second dt <= 59 /\
  0 <= microsecond dt <= 999999.
Proof.
  pose proof (fields_ok dt) as H. unfold valid_fields in H.
  repeat (apply andb_prop in H; destruct H as [H ?]).
  assert (days_in_month (year dt) (month dt) <= 31).
  { unfold days_in_month.
    repeat match goal with
           | |- context [match ?x with _ => _ end] => destruct x
           end; lia. }
  lia.
Qed.

Lemma tz_range (dt : datetime) (off : Z) :
  tzinfo dt = Some off -> - day_us < off < day_us.
Proof.
  intros E. pose proof (tz_ok dt) as H. rewrite E in H.
  unfold valid_tz, day_us in *. apply andb_prop in H. lia.
Qed.

(** ** [fromisoformat] on what [isoformat] wrote *)

Lemma digit_char_is_digit (d : Z) : is_digit (digit_char d) = true.
Proof.
  destruct d as [| p | p]; try reflexivity.
  do 4 (destruct p as [p | p |]; try reflexivity).
Qed.

Lemma digit_char_ascii (d : Z) : (nat_of_ascii (digit_char d) <? 128)%nat = true.
Proof.
  destruct d as [| p | p]; try reflexivity.
  do 4 (destruct p as [p | p |]; try reflexivity).
Qed.

Lemma utf8_append (a b : string) : utf8 (a ++ b) = (utf8 a ++ utf8 b)%string.
Proof.
  induction a as [| c a IH]; [reflexivity |].
  cbn [append utf8]. destruct (nat_of_ascii c <? 128)%nat; cbn [append]; now rewrite IH.
Qed.

Lemma utf8_pad (w : nat) (n : Z) : utf8 (pad w n) = pad w n.
Proof.
  induction w as [| w IH]; [reflexivity |].
  cbn [pad utf8]. now rewrite digit_char_ascii, IH.
Qed.

Lemma utf8_isoformat (dt : datetime) : utf8 (isoformat dt) = isoformat dt.
Proof.
  unfold isoformat, format_time, format_offset.
  destruct (microsecond dt =? 0); destruct (tzinfo dt) as [off |];
    cbv zeta;
    try destruct (off <? 0);
    try destruct (((Z.abs off / 1000000) mod 60 =? 0) && (Z.abs off mod 1000000 =? 0));
    try destruct (Z.abs off mod 1000000 =? 0);
    repeat rewrite utf8_append;
    repeat rewrite utf8_pad;
    reflexivity.
Qed.

Lemma find_tzinfo_pad (w : nat) (n : Z) (r : string) :
  find_tzinfo (pad w n ++ r) = (w + find_tzinfo r)%nat.
Proof.
  induction w as [| w IH]; [reflexivity |].
  cbn [pad append find_tzinfo]. unfold is_tz_char.
  rewrite !digit_char_not by reflexivity. cbn [orb]. now rewrite IH.
Qed.

Lemma drop_pad (w : nat) (n : Z) (r : string) : drop w (pad w n ++ r) = r.
Proof. induction w as [| w IH]; [reflexivity | exact IH]. Qed.

Lemma drop_add (a b : nat) (p : string) : drop (a + b) p = drop b (drop a p).
Proof. revert p. induction a as [| a IH]; intros p; [reflexivity | apply IH]. Qed.

Lemma skip_digits_stop (r : string) : is_digit (peek r) = false -> skip_digits r = r.
Proof. destruct r as [| c r]; [reflexivity |]. simpl. now intros ->. Qed.

(** One round of the loop, by the character that follows the two digits. *)
Lemma round_finished (first hs : bool) (v : Z) (r : string) (room : Z) :
  0 <= v < 100 -> room <= 3 ->
  parse_hh_mm_ss_round first hs (pad 2 v ++ r) room
  = Some (v, Finished (negb (peek r =? NUL)%char)).
Proof.
  intros Hv Hroom. unfold parse_hh_mm_ss_round.
  rewrite read2_pad by exact Hv.
  replace (room - 3 <=? 0) with true by (symmetry; apply Z.leb_le; lia).
  reflexivity.
Qed.

Lemma round_colon (first hs : bool) (v : Z) (r : string) (room : Z) :
  0 <= v < 100 -> 3 < room -> (if first then true else hs) = true ->
  parse_hh_mm_ss_round first hs (pad 2 v ++ ":" ++ r) room
  = Some (v, Continue r (room - 3) true).
Proof.
  intros Hv Hroom Hs. unfold parse_hh_mm_ss_round.
  rewrite read2_pad by exact Hv.
  replace (room - 3 <=? 0) with false by (symmetry; apply Z.leb_gt; lia).
  cbn [append peek advance].
  change (":" =? ":")%char with true.
  destruct first; [reflexivity |]. rewrite Hs. reflexivity.
Qed.

Lemma round_dot (v : Z) (r : string) (room : Z) :
  0 <= v < 100 -> 3 < room ->
  parse_hh_mm_ss_round false true (pad 2 v ++ "." ++ r) room
  = Some (v, Break r (room - 3)).
Proof.
  intros Hv Hroom. unfold parse_hh_mm_ss_round.
  rewrite read2_pad by exact Hv.
  replace (room - 3 <=? 0) with false by (symmetry; apply Z.leb_gt; lia).
  reflexivity.
Qed.

(** The three shapes of a time of day or of an offset. *)
Lemma parse_hh_mm (h mi : Z) (r : string) :
  0 <= h < 100 -> 0 <= mi < 100 ->
  parse_hh_mm_ss_ff (pad 2 h ++ ":" ++ pad 2 mi ++ r) 5
  = Some (negb (peek r =? NUL)%char, (h, mi, 0, 0)).
Proof.
  intros Hh Hmi. unfold parse_hh_mm_ss_ff.
  rewrite round_colon by (trivial; lia).
  rewrite round_finished by (trivial; lia).
  reflexivity.
Qed.

Lemma parse_hh_mm_ss (h mi s : Z) (r : string) :
  0 <= h < 100 -> 0 <= mi < 100 -> 0 <= s < 100 ->
  parse_hh_mm_ss_ff (pad 2 h ++ ":" ++ pad 2 mi ++ ":" ++ pad 2 s ++ r) 8
  = Some (negb (peek r =? NUL)%char, (h, mi, s, 0)).
Proof.
  intros Hh Hmi Hs. unfold parse_hh_mm_ss_ff.
  rewrite round_colon by (trivial; lia).
  rewrite round_colon by (trivial; lia).
  rewrite round_finished by (trivial; lia).
  reflexivity.
Qed.

Lemma parse_hh_mm_ss_us (h mi s us : Z) (r : string) :
  0 <= h < 100 -> 0 <= mi < 100 -> 0 <= s < 100 -> 0 <= us < 1000000 ->
  is_digit (peek r) = false ->
  parse_hh_mm_ss_ff
    (pad 2 h ++ ":" ++ pad 2 mi ++ ":" ++ pad 2 s ++ "." ++ pad 6 us ++ r) 15
  = Some (negb (peek r =? NUL)%char, (h, mi, s, us)).
Proof.
  intros Hh Hmi Hs Hus Hr. unfold parse_hh_mm_ss_ff.
  rewrite round_colon by (trivial; lia).
  rewrite round_colon by (trivial; lia).
  rewrite round_dot by (trivial; lia).
  unfold parse_fraction.
  change (Z.to_nat (Z.min (15 - 3 - 3 - 3) 6)) with 6%nat.
  rewrite read6_pad by exact Hus.
  rewrite skip_digits_stop by exact Hr.
  change (10 ^ (6 - Z.of_nat 6)) with 1. rewrite Z.mul_1_r. reflexivity.
Qed.

Lemma drop_append (a b : string) : drop (String.length a) (a ++ b) = b.
Proof. induction a as [| c a IH]; [reflexivity | exact IH]. Qed.

Lemma find_tzinfo_format_time (h mi s us : Z) (r : string) :
  find_tzinfo (format_time h mi s us ++ r)
  = (String.length (format_time h mi s us) + find_tzinfo r)%nat.
Proof.
  unfold format_time. destruct (us =? 0);
    repeat rewrite append_assoc;
    repeat (rewrite find_tzinfo_pad; cbn [append find_tzinfo is_tz_char Ascii.eqb
                                             Bool.eqb orb]);
    repeat rewrite length_append; repeat rewrite length_pad; reflexivity.
Qed.

Lemma parse_format_time (h mi s us : Z) (r : string) :
  0 <= h < 100 -> 0 <= mi < 100 -> 0 <= s < 100 -> 0 <= us < 1000000 ->
  is_digit (peek r) = false ->
  parse_hh_mm_ss_ff (format_time h mi s us ++ r)
    (Z.of_nat (String.length (format_time h mi s us)))
  = Some (negb (peek r =? NUL)%char, (h, mi, s, us)).
Proof.
  intros Hh Hmi Hs Hus Hr. unfold format_time.
  destruct (Z.eqb_spec us 0) as [-> | Hne].
  - rewrite append_empty_r.
    replace (Z.of_nat (String.length (pad 2 h ++ ":" ++ pad 2 mi ++ ":" ++ pad 2 s)))
      with 8 by reflexivity.
    repeat rewrite append_assoc. cbn [append].
    apply (parse_hh_mm_ss h mi s r); assumption.
  - replace (Z.of_nat (String.length
               (pad 2 h ++ ":" ++ pad 2 mi ++ ":" ++ pad 2 s ++ "." ++ pad 6 us)))
      with 15 by reflexivity.
    repeat rewrite append_assoc. cbn [append].
    apply (parse_hh_mm_ss_us h mi s us r); assumption.
Qed.

(** The offset that [format_offset] wrote, after its sign. *)
Lemma parse_offset_body (a : Z) :
  0 <= a < 86400000000 ->
  let hh := a / 3600000000 in
  let mm := (a / 60000000) mod 60 in
  let ss := (a / 1000000) mod 60 in
  let us := a mod 1000000 in
  let body :=
    pad 2 hh ++ ":" ++ pad 2 mm ++
    (if (ss =? 0) && (us =? 0) then ""
     else ":" ++ pad 2 ss ++ (if us =? 0 then "" else "." ++ pad 6 us)) in
  parse_hh_mm_ss_ff body (Z.of_nat (String.length body))
  = Some (false, (hh, mm, ss, us)).
Proof.
  intros Ha hh mm ss us.
  assert (Hhh : 0 <= hh < 100) by (unfold hh; Z.div_mod_to_equations; lia).
  assert (Hmm : 0 <= mm < 100) by (unfold mm; Z.div_mod_to_equations; lia).
  assert (Hss : 0 <= ss < 100) by (unfold ss; Z.div_mod_to_equations; lia).
  assert (Hus : 0 <= us < 1000000) by (unfold us; Z.div_mod_to_equations; lia).
  clearbody hh mm ss us. cbv zeta.
  destruct (Z.eqb_spec ss 0) as [Es | Es];
    [destruct (Z.eqb_spec us 0) as [Eu | Eu] | destruct (Z.eqb_spec us 0) as [Eu | Eu]];
    cbn [andb].
  - subst ss us.
    replace (Z.of_nat (String.length (pad 2 hh ++ ":" ++ pad 2 mm ++ ""))) with 5
      by reflexivity.
    apply (parse_hh_mm hh mm ""); assumption.
  - replace (Z.of_nat (String.length
               (pad 2 hh ++ ":" ++ pad 2 mm ++ ":" ++ pad 2 ss ++ "." ++ pad 6 us)))
      with 15 by reflexivity.
    rewrite <- (append_empty_r (pad 6 us)).
    apply (parse_hh_mm_ss_us hh mm ss us ""); trivial.
  - subst us.
    replace (Z.of_nat (String.length
               (pad 2 hh ++ ":" ++ pad 2 mm ++ ":" ++ pad 2 ss ++ "")))
      with 8 by reflexivity.
    apply (parse_hh_mm_ss hh mm ss ""); assumption.
  - replace (Z.of_nat (String.length
               (pad 2 hh ++ ":" ++ pad 2 mm ++ ":" ++ pad 2 ss ++ "." ++ pad 6 us)))
      with 15 by reflexivity.
    rewrite <- (append_empty_r (pad 6 us)).
    apply (parse_hh_mm_ss_us hh mm ss us ""); trivial.
Qed.

Lemma drop_S_append (a : string) (c : ascii) (b : string) :
  drop (S (String.length a)) (a ++ String c b) = b.
Proof.
  replace (S (String.length a)) with (String.length a + 1)%nat by lia.
  rewrite drop_add, drop_append. reflexivity.
Qed.

Lemma parse_format_time_offset (h mi s us : Z) (tz : option Z) :
  0 <= h < 100 -> 0 <= mi < 100 -> 0 <= s < 100 -> 0 <= us < 1000000 ->
  valid_tz tz = true ->
  parse_isoformat_time (format_time h mi s us ++ format_offset tz)
    (String.length (format_time h mi s us ++ format_offset tz))
  = Some (h, mi, s, us, raw_offset tz).
Proof.
  intros Hh Hmi Hs Hus Htz. unfold parse_isoformat_time.
  rewrite find_tzinfo_format_time.
  destruct tz as [off |].
  - unfold valid_tz, day_us in Htz. apply andb_prop in Htz.
    assert (Ha : 0 <= Z.abs off < 86400000000) by lia.
    pose proof (parse_offset_body (Z.abs off) Ha) as Hbody. cbv zeta in Hbody.
    unfold format_offset, raw_offset. cbv zeta.
    set (body := pad 2 (Z.abs off / 3600000000) ++ _) in *.
    set (sgn := if off <? 0 then "-"%char else "+"%char).
    assert (Hshape : (if off <? 0 then "-" else "+") ++ body = String sgn body)
      by (unfold sgn; destruct (off <? 0); reflexivity).
    assert (Htzc : is_tz_char sgn = true)
      by (unfold sgn; destruct (off <? 0); reflexivity).
    assert (Hdig : is_digit (peek (String sgn body)) = false)
      by (unfold sgn; destruct (off <? 0); reflexivity).
    assert (Hnul : negb (peek (String sgn body) =? NUL)%char = true)
      by (unfold sgn; destruct (off <? 0); reflexivity).
    assert (HZ : (sgn =? "Z")%char = false)
      by (unfold sgn; destruct (off <? 0); reflexivity).
    assert (Hsgn : (if (sgn =? "-")%char then -1 else 1) = (if off <? 0 then -1 else 1))
      by (unfold sgn; destruct (off <? 0); reflexivity).
    rewrite Hshape. cbn [find_tzinfo]. rewrite Htzc, Nat.add_0_r.
    rewrite parse_format_time by assumption.
    rewrite length_append. cbn [String.length].
    replace (String.length (format_time h mi s us)
             =? String.length (format_time h mi s us) + S (String.length body))%nat
      with false by (symmetry; apply Nat.eqb_neq; lia).
    unfold char_at. rewrite drop_append, drop_S_append. cbn [peek].
    rewrite HZ, Hsgn.
    replace (String.length (format_time h mi s us) + S (String.length body)
             - S (String.length (format_time h mi s us)))%nat
      with (String.length body) by lia.
    rewrite Hbody.
    assert (Hsum : Z.abs off / 3600000000 * 3600 + (Z.abs off / 60000000) mod 60 * 60
                   + (Z.abs off / 1000000) mod 60 = Z.abs off / 1000000)
      by (Z.div_mod_to_equations; lia).
    rewrite Hsum. reflexivity.
  - cbn [format_offset raw_offset find_tzinfo]. rewrite !append_empty_r, Nat.add_0_r.
    rewrite <- (append_empty_r (format_time h mi s us)) at 1.
    rewrite parse_format_time by (trivial; reflexivity).
    rewrite Nat.eqb_refl. reflexivity.
Qed.

Lemma parse_isoformat_datetime_isoformat (dt : datetime) :
  parse_isoformat_datetime (isoformat dt)
  = Some (year dt, month dt, day dt,
          (hour dt, minute dt, second dt, microsecond dt, raw_offset (tzinfo dt))).
Proof.
  pose proof (fields_range dt) as (Hy & Hmo & Hd & Hh & Hmi & Hs & Hus).
  unfold parse_isoformat_datetime. rewrite utf8_isoformat.
  unfold isoformat.
  set (tail := format_time (hour dt) (minute dt) (second dt) (microsecond dt)
               ++ format_offset (tzinfo dt)).
  assert (Hlen : String.length
                   (pad 4 (year dt) ++ "-" ++ pad 2 (month dt) ++ "-" ++
                    pad 2 (day dt) ++ "T" ++ tail)
                 = (11 + String.length tail)%nat) by reflexivity.
  rewrite Hlen.
  replace (11 + String.length tail <? 7)%nat with false
    by (symmetry; apply Nat.ltb_ge; lia).
  assert (Hsep : find_isoformat_datetime_separator
                   (pad 4 (year dt) ++ "-" ++ pad 2 (month dt) ++ "-" ++
                    pad 2 (day dt) ++ "T" ++ tail) (11 + String.length tail)
                 = Some 10%nat).
  { unfold find_isoformat_datetime_separator.
    change (11 + String.length tail =? 7)%nat with false.
    change (char_at 4 (pad 4 (year dt) ++ "-" ++ pad 2 (month dt) ++ "-" ++
                       pad 2 (day dt) ++ "T" ++ tail)) with "-"%char.
    change ("-" =? "-")%char with true. cbv iota.
    unfold char_at. cbn [drop advance pad append peek].
    rewrite digit_char_not by reflexivity. reflexivity. }
  rewrite Hsep.
  assert (Hdate : parse_isoformat_date
                    (pad 4 (year dt) ++ "-" ++ pad 2 (month dt) ++ "-" ++
                     pad 2 (day dt) ++ "T" ++ tail) 10
                  = Some (year dt, month dt, day dt)).
  { unfold parse_isoformat_date.
    rewrite read4_pad by lia. cbn [append peek advance].
    change ("-" =? "-")%char with true. cbv iota. cbn [advance].
    assert (HW : (peek (pad 2 (month dt) ++ String "-" (pad 2 (day dt) ++ String "T" tail))
                  =? "W")%char = false)
      by (cbn [pad append peek]; apply digit_char_not; reflexivity).
    rewrite HW.
    rewrite read2_pad by lia. cbn [peek advance andb negb].
    change ("-" =? "-")%char with true. cbn [negb].
    rewrite read2_pad by lia. reflexivity. }
  rewrite Hdate.
  replace (10 <? 11 + String.length tail)%nat with true
    by (symmetry; apply Nat.ltb_lt; lia).
  assert (Hskip : skip_separator
                    (drop 10 (pad 4 (year dt) ++ "-" ++ pad 2 (month dt) ++ "-" ++
                              pad 2 (day dt) ++ "T" ++ tail)) = tail)
    by reflexivity.
  rewrite Hskip. unfold tail.
  rewrite parse_format_time_offset by (try lia; apply tz_ok).
  reflexivity.
Qed.

Lemma tzinfo_read_back (tz : option Z) :
  valid_tz tz = true ->
  tzinfo_from_isoformat_results (raw_offset tz)
  = match tz with
    | Some off => if Z.abs off <? 1000000 then Some utc else Some off
    | None => None
    end.
Proof.
  destruct tz as [off |]; [| reflexivity].
  unfold valid_tz, day_us. intros H. apply andb_prop in H.
  unfold raw_offset, tzinfo_from_isoformat_results. cbv zeta.
  destruct (Z.ltb_spec (Z.abs off) 1000000) as [Hlt | Hge].
  - replace ((if off <? 0 then -1 else 1) * (Z.abs off / 1000000) =? 0) with true;
      [reflexivity |].
    symmetry. apply Z.eqb_eq. rewrite Z.div_small by lia. lia.
  - replace ((if off <? 0 then -1 else 1) * (Z.abs off / 1000000) =? 0) with false.
    + f_equal. destruct (Z.ltb_spec off 0); Z.div_mod_to_equations; lia.
    + symmetry. apply Z.eqb_neq.
      destruct (Z.ltb_spec off 0); Z.div_mod_to_equations; lia.
Qed.

Theorem fromisoformat_isoformat (dt : datetime) :
  fromisoformat (isoformat dt) = Ok (read_back dt).
Proof.
  unfold fromisoformat. rewrite parse_isoformat_datetime_isoformat.
  rewrite tzinfo_read_back by apply tz_ok.
  pose proof (new_datetime_fields (read_back dt)) as Hnew.
  unfold read_back in *.
  destruct (tzinfo dt) as [off |] eqn:Etz.
  - destruct (Z.abs off <? 1000000).
    + cbn [year month day hour minute second microsecond tzinfo replace_tzinfo_utc]
        in Hnew. rewrite Hnew. reflexivity.
    + rewrite Etz in Hnew. rewrite Hnew. reflexivity.
  - rewrite Etz in Hnew. rewrite Hnew. reflexivity.
Qed.



(** ** What [fromisoformat] can return *)

Lemma read_digits_bounds (w : nat) : forall (acc : Z) (s : string) (v : Z) (r : string),
  read_digits w acc s = Some (v, r) ->
  acc * 10 ^ Z.of_nat w <= v < (acc + 1) * 10 ^ Z.of_nat w.
Proof.
  induction w as [| w IH]; intros acc s v r H.
  - simpl in H. injection H as <- _. simpl. lia.
  - cbn [read_digits] in H. destruct s as [| c s]; [discriminate |].
    destruct (digit_val c) as [d |] eqn:Ed; [| discriminate].
    apply IH in H.
    assert (Hd : 0 <= d <= 9).
    { unfold digit_val in Ed.
      destruct ((48 <=? Z.of_nat (nat_of_ascii c)) && (Z.of_nat (nat_of_ascii c) <=? 57))
        eqn:E; [| discriminate].
      injection Ed as <-. apply andb_prop in E. lia. }
    rewrite Nat2Z.inj_succ, Z.pow_succ_r by lia.
    assert (0 < 10 ^ Z.of_nat w) by (apply Z.pow_pos_nonneg; lia).
    nia.
Qed.

Lemma parse_fraction_bounds (p : string) (room : Z) (rest : bool) (us : Z) :
  parse_fraction p room = Some (rest, us) -> 0 <= us < 1000000.
Proof.
  unfold parse_fraction.
  set (k := Z.to_nat (Z.min room 6)).
  assert (Hk : (k <= 6)%nat) by (unfold k; lia).
  destruct (read_digits k 0 p) as [[v p1] |] eqn:Er; [| discriminate].
  intros [= _ <-]. apply read_digits_bounds in Er.
  assert (Hsplit : 10 ^ Z.of_nat k * 10 ^ (6 - Z.of_nat k) = 1000000).
  { rewrite <- Z.pow_add_r by lia. replace (Z.of_nat k + (6 - Z.of_nat k)) with 6 by lia.
    reflexivity. }
  assert (0 < 10 ^ Z.of_nat k) by (apply Z.pow_pos_nonneg; lia).
  assert (0 < 10 ^ (6 - Z.of_nat k)) by (apply Z.pow_pos_nonneg; lia).
  rewrite Z.mul_0_l, Z.add_0_l, Z.mul_1_l in Er.
  rewrite <- Hsplit. split.
  - apply Z.mul_nonneg_nonneg; lia.
  - apply Z.mul_lt_mono_pos_r; lia.
Qed.

Lemma round_bounds (first hs : bool) (p : string) (room v : Z) (e : round_end) :
  parse_hh_mm_ss_round first hs p room = Some (v, e) -> 0 <= v.
Proof.
  unfold parse_hh_mm_ss_round.
  destruct (read_digits 2 0 p) as [[v0 p1] |] eqn:Er; [| discriminate].
  intros [= <- _]. apply read_digits_bounds in Er. lia.
Qed.

Lemma parse_hh_mm_ss_ff_bounds (p : string) (room : Z) (rest : bool) (h mi s us : Z) :
  parse_hh_mm_ss_ff p room = Some (rest, (h, mi, s, us)) ->
  0 <= h /\ 0 <= mi /\ 0 <= s /\ 0 <= us < 1000000.
Proof.
  unfold parse_hh_mm_ss_ff.
  destruct (parse_hh_mm_ss_round true true p room) as [[h0 e0] |] eqn:E0;
    [| discriminate].
  apply round_bounds in E0.
  assert (Hfrac : forall q n a b c,
            0 <= a -> 0 <= b -> 0 <= c ->
            (let? (rest0, us0) := parse_fraction q n in Some (rest0, (a, b, c, us0)))
            = Some (rest, (h, mi, s, us)) ->
            0 <= h /\ 0 <= mi /\ 0 <= s /\ 0 <= us < 1000000).
  { intros q n a b c Ha Hb Hc.
    destruct (parse_fraction q n) as [[rest0 us0] |] eqn:Ef; [| discriminate].
    intros [= _ <- <- <- <-]. apply parse_fraction_bounds in Ef. lia. }
  destruct e0 as [| rest0 | p0 room0 hs0 | p0 room0]; try discriminate.
  - intros [= _ <- <- <- <-]. lia.
  - destruct (parse_hh_mm_ss_round false hs0 p0 room0) as [[mi0 e1] |] eqn:E1;
      [| discriminate].
    apply round_bounds in E1.
    destruct e1 as [| rest1 | p1 room1 hs1 | p1 room1]; try discriminate.
    + intros [= _ <- <- <- <-]. lia.
    + destruct (parse_hh_mm_ss_round false hs1 p1 room1) as [[s0 e2] |] eqn:E2;
        [| discriminate].
      apply round_bounds in E2.
      destruct e2 as [| rest2 | p2 room2 hs2 | p2 room2]; try discriminate.
      * intros [= _ <- <- <- <-]. lia.
      * apply Hfrac; lia.
      * apply Hfrac; lia.
    + apply Hfrac; lia.
  - apply Hfrac; lia.
Qed.

Lemma parse_isoformat_time_offset (p : string) (len : nat)
    (h mi s us q r : Z) :
  parse_isoformat_time p len = Some (h, mi, s, us, Some (q, r)) ->
  exists sign secs tus,
    (sign = 1 \/ sign = -1) /\ 0 <= secs /\ 0 <= tus < 1000000 /\
    q = sign * secs /\ r = sign * tus.
Proof.
  unfold parse_isoformat_time.
  destruct (parse_hh_mm_ss_ff p (Z.of_nat (find_tzinfo p)))
    as [[rest [[[h0 mi0] s0] us0]] |]; [| discriminate].
  destruct (find_tzinfo p =? len)%nat.
  - destruct rest; discriminate.
  - destruct (char_at (find_tzinfo p) p =? "Z")%char.
    + destruct (peek (drop (S (find_tzinfo p)) p) =? NUL)%char; [| discriminate].
      intros [= _ _ _ _ <- <-]. exists 1, 0, 0. lia.
    + destruct (parse_hh_mm_ss_ff (drop (S (find_tzinfo p)) p)
                  (Z.of_nat (len - S (find_tzinfo p))))
        as [[[] [[[th tm] ts] tus]] |] eqn:Etz; try discriminate.
      apply parse_hh_mm_ss_ff_bounds in Etz.
      intros [= _ _ _ _ <- <-].
      exists (if (char_at (find_tzinfo p) p =? "-")%char then -1 else 1),
             (th * 3600 + tm * 60 + ts), tus.
      repeat split; try lia.
      destruct (char_at (find_tzinfo p) p =? "-")%char; auto.
Qed.

Lemma new_datetime_tzinfo (y mo d h mi s us : Z) (tz : option Z) (dt : datetime) :
  new_datetime y mo d h mi s us tz = Some dt -> tzinfo dt = tz.
Proof.
  unfold new_datetime.
  generalize (@eq_refl bool (valid_fields y mo d h mi s us)).
  generalize (valid_fields y mo d h mi s us) at 2 3.
  intros [] Hf; [| discriminate].
  generalize (@eq_refl bool (valid_tz tz)).
  generalize (valid_tz tz) at 2 3.
  intros [] Ht; [| discriminate].
  intros [= <-]. reflexivity.
Qed.

(** A parsed offset is zero or at least one second. *)
Lemma fromisoformat_stable (s : string) (dt : datetime) :
  fromisoformat s = Ok dt -> aware dt = true -> stable dt = true.
Proof.
  unfold fromisoformat.
  destruct (parse_isoformat_datetime s)
    as [[[[y mo] d] [[[[h mi] sec] us] tz]] |] eqn:Ep; [| discriminate].
  destruct (new_datetime y mo d h mi sec us (tzinfo_from_isoformat_results tz))
    as [dt0 |] eqn:En; [| discriminate].
  intros [= <-]. apply new_datetime_tzinfo in En.
  unfold aware, stable. rewrite En.
  destruct tz as [[q r] |]; [| discriminate].
  intros _.
  unfold parse_isoformat_datetime in Ep.
  destruct (String.length (utf8 s) <? 7)%nat; [discriminate |].
  destruct (find_isoformat_datetime_separator (utf8 s) (String.length (utf8 s)))
    as [loc |]; [| discriminate].
  destruct (parse_isoformat_date (utf8 s) loc) as [date |]; [| discriminate].
  destruct (loc <? String.length (utf8 s))%nat; [| discriminate].
  destruct (parse_isoformat_time _ _) as [[[[[h1 mi1] s1] us1] tz1] |] eqn:Et;
    [| discriminate].
  injection Ep as _ _ _ _ _ Htz. subst tz1.
  apply parse_isoformat_time_offset in Et.
  destruct Et as (sign & secs & tus & Hsign & Hsecs & Htus & -> & ->).
  unfold tzinfo_from_isoformat_results.
  destruct (Z.eqb_spec (sign * secs) 0) as [E | E]; [reflexivity |].
  apply orb_true_iff. right. apply Z.leb_le.
  destruct Hsign as [-> | ->]; lia.
Qed.

Lemma str_replace_isoformat (dt : datetime) :
  str_replace (isoformat dt) "Z" "+00:00" = isoformat dt.
Proof.
  unfold isoformat, format_time, format_offset.
  destruct (microsecond dt =? 0); destruct (tzinfo dt) as [off |];
    cbv zeta;
    try destruct (off <? 0);
    try destruct (((Z.abs off / 1000000) mod 60 =? 0) && (Z.abs off mod 1000000 =? 0));
    try destruct (Z.abs off mod 1000000 =? 0);
    repeat rewrite str_replace_append;
    repeat rewrite str_replace_pad by reflexivity;
    reflexivity.
Qed.

(** ** The timestamp normalizer *)

Lemma stamp_utc_aware (dt : datetime) : aware (stamp_utc dt) = true.
Proof. unfold stamp_utc, aware. destruct (tzinfo dt) eqn:E; [now rewrite E | reflexivity]. Qed.

Lemma stamp_utc_id (dt : datetime) : aware dt = true -> stamp_utc dt = dt.
Proof. unfold stamp_utc, aware. destruct (tzinfo dt); [reflexivity | discriminate]. Qed.

Lemma stamp_utc_idem (dt : datetime) : stamp_utc (stamp_utc dt) = stamp_utc dt.
Proof. apply stamp_utc_id, stamp_utc_aware. Qed.

Lemma stable_aware (dt : datetime) : stable dt = true -> aware dt = true.
Proof. unfold stable, aware. destruct (tzinfo dt); [reflexivity | discriminate]. Qed.


Lemma restamped_id (dt : datetime) : stable dt = true -> restamped dt = dt.
Proof.
  unfold restamped, read_back, stamp_utc, stable.
  destruct (tzinfo dt) as [off |] eqn:Etz; [| discriminate].
  intros H. apply orb_true_iff in H.
  destruct (Z.ltb_spec (Z.abs off) 1000000) as [Hlt | Hge].
  - assert (off = 0) as -> by (destruct H as [H | H]; lia).
    cbn [tzinfo replace_tzinfo_utc].
    apply datetime_ext; try reflexivity. simpl. now rewrite Etz.
  - now rewrite Etz.
Qed.


Lemma parse_datetime_str (s : string) :
  _parse_datetime (PStr s) =
  Ok (match s with
      | EmptyString => None
      | _ => match fromisoformat (str_replace s "Z" "+00:00") with
             | Ok dt => Some (stamp_utc dt)
             | Raise _ => None
             end
      end).
Proof.
  destruct s as [| c s]; [reflexivity |].
  unfold _parse_datetime. cbn [truthy String.eqb negb call_replace bind].
  assert (Hv : forall r, fromisoformat r = Raise ValueError \/
                         exists dt, fromisoformat r = Ok dt).
  { intros r. unfold fromisoformat.
    destruct (let? (y, mo, d, (h, mi, sec, us, tz)) := parse_isoformat_datetime r in _);
      eauto. }
  destruct (Hv (str_replace (String c s) "Z" "+00:00")) as [-> | [dt ->]]; reflexivity.
Qed.

Lemma parse_datetime_isoformat (dt : datetime) :
  _parse_datetime (PStr (isoformat dt)) = Ok (Some (restamped dt)).
Proof.
  rewrite parse_datetime_str, str_replace_isoformat, fromisoformat_isoformat.
  unfold isoformat. reflexivity.
Qed.

Lemma parse_datetime_total (v : pyval) :
  _parse_datetime v =
  Ok (match v with
      | PDatetime dt => Some dt
      | PStr s =>
          match fromisoformat (str_replace s "Z" "+00:00") with
          | Ok dt => Some (stamp_utc dt)
          | Raise _ => None
          end
      | _ => None
      end).
Proof.
  destruct v as [| b | n | x | s | l | d | dt]; try reflexivity.
  - destruct b; reflexivity.
  - unfold _parse_datetime; destruct (truthy (PInt n)); reflexivity.
  - unfold _parse_datetime; destruct (truthy (PFloat x)); reflexivity.
  - rewrite parse_datetime_str. destruct s; reflexivity.
  - destruct l; reflexivity.
  - destruct d; reflexivity.
Qed.

Lemma parse_datetime_parsed (v : pyval) : _parse_datetime v = Ok (parsed v).
Proof. unfold parsed. rewrite parse_datetime_total. reflexivity. Qed.

Lemma parsed_isoformat_or_none (o : option datetime) :
  parsed (isoformat_or_none o) = restamped_opt o.
Proof.
  unfold parsed. destruct o as [dt |]; [| reflexivity].
  cbn [isoformat_or_none]. now rewrite parse_datetime_isoformat.
Qed.

Lemma restamped_opt_id (o : option datetime) :
  stable_opt o = true -> restamped_opt o = o.
Proof.
  destruct o as [dt |]; [| reflexivity].
  simpl. intros H. now rewrite restamped_id.
Qed.




(** ** Dict access *)

Lemma get_dict (d : dict) (k : string) (default : pyval) :
  get (PDict d) k default = Ok (dict_get k default d).
Proof. unfold get, dict_get. destruct (dict_lookup k d); reflexivity. Qed.

Lemma get_datetime_dict (d : dict) (k : string) :
  get_datetime (PDict d) k = Ok (parsed (dict_get k PNone d)).
Proof. unfold get_datetime. rewrite get_dict. apply parse_datetime_parsed. Qed.

Lemma dict_lookup_remove_other (k k' : string) (d : dict) :
  k <> k' -> dict_lookup k' (dict_remove k d) = dict_lookup k' d.
Proof.
  intros Hne. induction d as [| [k0 v] d IH]; [reflexivity |].
  simpl. destruct (String.eqb_spec k k0) as [-> | Hk].
  - rewrite IH. destruct (String.eqb_spec k' k0) as [-> | ?]; [congruence | reflexivity].
  - simpl. rewrite IH. reflexivity.
Qed.

Lemma dict_lookup_remove_same (k : string) (d : dict) :
  dict_lookup k (dict_remove k d) = None.
Proof.
  induction d as [| [k0 v] d IH]; [reflexivity |].
  simpl. destruct (String.eqb_spec k k0) as [-> | Hk]; [exact IH |].
  simpl. destruct (String.eqb_spec k k0); [contradiction | exact IH].
Qed.

Lemma has_key_remove_other (k k' : string) (d : dict) :
  k <> k' -> has_key k' (dict_remove k d) = has_key k' d.
Proof. intros H. unfold has_key. now rewrite dict_lookup_remove_other. Qed.

(** After a key is removed, another key reads as before and the key itself
    reads as its default. *)
Lemma dict_get_remove (k k' : string) (default : pyval) (d : dict) :
  dict_get k' default (dict_remove k d) =
  if (k =? k')%string then default else dict_get k' default d.
Proof.
  unfold dict_get. destruct (String.eqb_spec k k') as [-> | Hne].
  - now rewrite dict_lookup_remove_same.
  - now rewrite dict_lookup_remove_other.
Qed.

(** ** Comprehensions *)

Lemma comprehension_ok {A B : Type} (f : A -> result B) (l : list A) (ys : list B) :
  comprehension f l = Ok ys <-> Forall2 (fun x y => f x = Ok y) l ys.
Proof.
  revert ys. induction l as [| x l IH]; intros ys; simpl.
  - split.
    + intros [= <-]. constructor.
    + intros H. inversion H. reflexivity.
  - split.
    + destruct (f x) as [y | e] eqn:Ex; [| discriminate]. simpl.
      destruct (comprehension f l) as [ys' | e] eqn:El; [| discriminate]. simpl.
      intros [= <-]. constructor; [exact Ex | now apply IH].
    + intros H. inversion H as [| x0 y l0 ys' Hxy Hrest]; subst.
      rewrite Hxy. simpl. apply IH in Hrest. rewrite Hrest. reflexivity.
Qed.

(** ** Value objects *)

Lemma Currency_from_dict_cases (v : pyval) :
  Currency.from_dict v =
  if negb (truthy v) then Ok None
  else match v with
       | PDict d =>
           Ok (Some (Currency.mk (dict_get "identifier" (PStr "") d)
                                 (dict_get "name" (PStr "") d)
                                 (dict_get "decimals" (PInt 2) d)))
       | _ => Raise AttributeError
       end.
Proof.
  unfold Currency.from_dict. destruct (negb (truthy v)); [reflexivity |].
  destruct v; try reflexivity.
  now rewrite !get_dict.
Qed.

Lemma Balance_from_dict_cases (v : pyval) :
  Balance.from_dict v =
  if negb (truthy v) then Ok None
  else match v with
       | PDict d =>
           Ok (Some (Balance.mk (dict_get "amount" (PFloat 0) d)
                                (dict_get "credit" (PFloat 0) d)))
       | _ => Raise AttributeError
       end.
Proof.
  unfold Balance.from_dict. destruct (negb (truthy v)); [reflexivity |].
  destruct v; try reflexivity.
  now rewrite !get_dict.
Qed.

Lemma Currency_is_ok (v : pyval) :
  is_ok (Currency.from_dict v) = value_object_source v.
Proof.
  rewrite Currency_from_dict_cases. unfold value_object_source.
  destruct (negb (truthy v)); [reflexivity |]. destruct v; reflexivity.
Qed.

Lemma Balance_is_ok (v : pyval) :
  is_ok (Balance.from_dict v) = value_object_source v.
Proof.
  rewrite Balance_from_dict_cases. unfold value_object_source.
  destruct (negb (truthy v)); [reflexivity |]. destruct v; reflexivity.
Qed.

Lemma Currency_never_missing (k : string) (v : pyval) :
  missing_field k (Currency.from_dict v) = false.
Proof.
  rewrite Currency_from_dict_cases.
  destruct (negb (truthy v)); [reflexivity |]. destruct v; reflexivity.
Qed.

Lemma Balance_never_missing (k : string) (v : pyval) :
  missing_field k (Balance.from_dict v) = false.
Proof.
  rewrite Balance_from_dict_cases.
  destruct (negb (truthy v)); [reflexivity |]. destruct v; reflexivity.
Qed.

(** A currency that [to_dict] wrote reads back as it was. *)
Lemma Currency_from_dict_written (o : option Currency.t) :
  Currency.from_dict (currency_or_none o) = Ok o.
Proof. destruct o as [[i n dec] |]; reflexivity. Qed.

(** ** Charge *)

Ltac eval_gets :=
  repeat first [ rewrite get_datetime_dict | rewrite get_dict ]; cbn [bind].

Lemma Charge_from_dict_dict (d : dict) :
  Charge.from_dict (PDict d) =
  match dict_lookup "id" d with
  | Some i =>
      Ok (Charge.mk i (dict_get "state" (PStr "") d)
            (parsed (dict_get "createdAt" PNone d))
            (parsed (dict_get "updatedAt" PNone d))
            (parsed (dict_get "startedAt" PNone d))
            (parsed (dict_get "stoppedAt" PNone d))
            (parsed (dict_get "cablePluggedInAt" PNone d))
            (parsed (dict_get "fullyChargedAt" PNone d))
            (parsed (dict_get "failedAt" PNone d))
            (parsed (dict_get "timeoutAt" PNone d)))
  | None => Raise (KeyError "id")
  end.
Proof.
  unfold Charge.from_dict, getitem.
  destruct (dict_lookup "id" d) as [i |]; [| reflexivity].
  cbn [bind]. eval_gets. reflexivity.
Qed.

Lemma Charge_is_ok (d : dict) :
  is_ok (Charge.from_dict (PDict d)) = has_key "id" d.
Proof.
  rewrite Charge_from_dict_dict. unfold has_key.
  destruct (dict_lookup "id" d); reflexivity.
Qed.

Lemma Charge_missing_id (d : dict) :
  missing_field "id" (Charge.from_dict (PDict d)) = negb (has_key "id" d).
Proof.
  rewrite Charge_from_dict_dict. unfold has_key.
  destruct (dict_lookup "id" d); reflexivity.
Qed.

(** Anything but a mapping is rejected with [TypeError]. *)
Lemma Charge_from_dict_other (v : pyval) :
  is_mapping v = false -> Charge.from_dict v = Raise TypeError.
Proof. destruct v; try reflexivity. discriminate. Qed.

Lemma Charge_roundtrip (x : Charge.t) :
  Charge.from_dict (Charge.to_dict x) = Ok (Charge.restamped x).
Proof.
  unfold Charge.to_dict. rewrite Charge_from_dict_dict.
  cbn [dict_lookup dict_get String.eqb Ascii.eqb Bool.eqb].
  rewrite !parsed_isoformat_or_none. reflexivity.
Qed.

Lemma Charge_restamped_stable (x : Charge.t) :
  Charge.all_stable x = true -> Charge.restamped x = x.
Proof.
  unfold Charge.all_stable, Charge.restamped. intros H.
  repeat (apply andb_prop in H; destruct H as [H ?]).
  destruct x; cbn in *.
  f_equal; now apply restamped_opt_id.
Qed.


(** ** WalletTransaction *)

Lemma WalletTransaction_from_dict_dict (d : dict) :
  WalletTransaction.from_dict (PDict d) =
  match dict_lookup "id" d with
  | Some i =>
      from_currency <- Currency.from_dict (dict_get "fromCurrency" PNone d) ;;
      to_currency <- Currency.from_dict (dict_get "toCurrency" PNone d) ;;
      Ok (WalletTransaction.mk i
            (dict_get "state" (PStr "") d) (dict_get "summary" (PStr "") d)
            (dict_get "fromAmount" (PFloat 0) d) from_currency
            (dict_get "toAmount" (PFloat 0) d) to_currency
            (dict_get "exchangeRate" (PFloat 1) d)
            (dict_get "note" PNone d)
            (dict_get "fromWalletId" PNone d) (dict_get "toWalletId" PNone d)
            (dict_get "chargeId" PNone d)
            (parsed (dict_get "createdAt" PNone d))
            (parsed (dict_get "updatedAt" PNone d))
            (parsed (dict_get "completedAt" PNone d)))
  | None => Raise (KeyError "id")
  end.
Proof.
  unfold WalletTransaction.from_dict, getitem, get_currency.
  destruct (dict_lookup "id" d) as [i |]; [| reflexivity].
  cbn [bind]. eval_gets.
  destruct (Currency.from_dict (dict_get "fromCurrency" PNone d)); [| reflexivity].
  cbn [bind]. eval_gets.
  destruct (Currency.from_dict (dict_get "toCurrency" PNone d)); [| reflexivity].
  cbn [bind]. eval_gets. reflexivity.
Qed.

Lemma WalletTransaction_is_ok (d : dict) :
  is_ok (WalletTransaction.from_dict (PDict d)) =
  has_key "id" d &&
  value_object_source (dict_get "fromCurrency" PNone d) &&
  value_object_source (dict_get "toCurrency" PNone d).
Proof.
  rewrite WalletTransaction_from_dict_dict. unfold has_key.
  rewrite <- !Currency_is_ok.
  destruct (dict_lookup "id" d); [| reflexivity].
  destruct (Currency.from_dict (dict_get "fromCurrency" PNone d)); [| reflexivity].
  destruct (Currency.from_dict (dict_get "toCurrency" PNone d)); reflexivity.
Qed.

Lemma WalletTransaction_missing_id (d : dict) :
  missing_field "id" (WalletTransaction.from_dict (PDict d)) = negb (has_key "id" d).
Proof.
  rewrite WalletTransaction_from_dict_dict. unfold has_key.
  destruct (dict_lookup "id" d); [| reflexivity].
  pose proof (Currency_never_missing "id" (dict_get "fromCurrency" PNone d)) as H1.
  pose proof (Currency_never_missing "id" (dict_get "toCurrency" PNone d)) as H2.
  destruct (Currency.from_dict (dict_get "fromCurrency" PNone d)); [| exact H1].
  destruct (Currency.from_dict (dict_get "toCurrency" PNone d)); [reflexivity | exact H2].
Qed.

Lemma WalletTransaction_roundtrip (x : WalletTransaction.t) :
  WalletTransaction.from_dict (WalletTransaction.to_dict x) =
  Ok (WalletTransaction.restamped x).
Proof.
  unfold WalletTransaction.to_dict. rewrite WalletTransaction_from_dict_dict.
  cbn [dict_lookup dict_get String.eqb Ascii.eqb Bool.eqb].
  rewrite !Currency_from_dict_written. cbn [bind].
  rewrite !parsed_isoformat_or_none. reflexivity.
Qed.

Lemma WalletTransaction_restamped_stable (x : WalletTransaction.t) :
  WalletTransaction.all_stable x = true -> WalletTransaction.restamped x = x.
Proof.
  unfold WalletTransaction.all_stable, WalletTransaction.restamped. intros H.
  repeat (apply andb_prop in H; destruct H as [H ?]).
  destruct x; cbn in *.
  f_equal; now apply restamped_opt_id.
Qed.


(** ** ChargePoint *)

Lemma ChargePoint_from_dict_dict (d : dict) :
  ChargePoint.from_dict (PDict d) =
  charges <- charges_of d ;;
  match dict_lookup "id" d with
  | Some i =>
      Ok (ChargePoint.mk i
            (dict_get "name" (PStr "") d) (dict_get "serialNumber" PNone d)
            (dict_get "type" (PStr "") d) (dict_get "state" (PStr "") d)
            (dict_get "visibility" (PStr "") d)
            (dict_get "lastMeterReadingKwh" (PFloat 0) d)
            (dict_get "brandName" (PStr "") d) (dict_get "modelName" (PStr "") d)
            (dict_get "firmwareVersion" (PStr "") d)
            (dict_get "cablePluggedIn" (PBool false) d)
            charges)
  | None => Raise (KeyError "id")
  end.
Proof.
  unfold ChargePoint.from_dict, charges_of. rewrite get_dict. cbn [bind].
  destruct (if truthy (dict_get "charges" (PList []) d) then _ else _)
    as [charges | e]; [| reflexivity].
  cbn [bind]. unfold getitem.
  destruct (dict_lookup "id" d) as [i |]; [| reflexivity].
  cbn [bind]. eval_gets. reflexivity.
Qed.

Lemma comprehension_charges (ms : list dict) :
  if forallb (has_key "id") ms
  then exists cs, comprehension Charge.from_dict (map PDict ms) = Ok cs /\
                  Forall2 (fun m c => Charge.from_dict (PDict m) = Ok c) ms cs
  else comprehension Charge.from_dict (map PDict ms) = Raise (KeyError "id").
Proof.
  induction ms as [| m ms IH]; simpl.
  - exists []. split; [reflexivity | constructor].
  - pose proof (Charge_is_ok m) as Hok. pose proof (Charge_missing_id m) as Hmiss.
    destruct (has_key "id" m); simpl.
    + destruct (Charge.from_dict (PDict m)) as [c | e] eqn:Ec; [| discriminate].
      simpl. destruct (forallb (has_key "id") ms).
      * destruct IH as (cs & -> & Hall). exists (c :: cs). split; [reflexivity |].
        constructor; assumption.
      * rewrite IH. reflexivity.
    + rewrite Charge_from_dict_dict in *. unfold has_key in *.
      destruct (dict_lookup "id" m); [discriminate | reflexivity].
Qed.

Lemma charges_of_mappings (d : dict) (ms : list dict) :
  charges_are d ms ->
  charges_of d = comprehension Charge.from_dict (map PDict ms).
Proof.
  unfold charges_are, charges_of, dict_get.
  intros [-> | [-> Hfalse]].
  - destruct ms; reflexivity.
  - cbv zeta. unfold dict_get in Hfalse. rewrite Hfalse. reflexivity.
Qed.

Lemma charges_of_remove (k : string) (d : dict) :
  is_ok (charges_of d) = true -> is_ok (charges_of (dict_remove k d)) = true.
Proof.
  unfold charges_of. cbv zeta. rewrite dict_get_remove.
  destruct (k =? "charges")%string; [reflexivity | trivial].
Qed.

Lemma ChargePoint_is_ok (d : dict) :
  is_ok (ChargePoint.from_dict (PDict d)) = is_ok (charges_of d) && has_key "id" d.
Proof.
  rewrite ChargePoint_from_dict_dict. unfold has_key.
  destruct (charges_of d); [| reflexivity]. cbn [bind].
  destruct (dict_lookup "id" d); reflexivity.
Qed.

(** ** Wallet *)

Lemma Wallet_from_dict_dict (d : dict) :
  Wallet.from_dict (PDict d) =
  balance <- Balance.from_dict (dict_get "balance" PNone d) ;;
  currency <- Currency.from_dict (dict_get "currency" PNone d) ;;
  Ok (Wallet.mk (dict_get "id" (PInt 0) d) (dict_get "ownerType" (PStr "") d)
        balance currency (dict_get "status" (PStr "") d)).
Proof.
  unfold Wallet.from_dict. eval_gets.
  destruct (Balance.from_dict (dict_get "balance" PNone d)); [| reflexivity].
  cbn [bind]. eval_gets.
  destruct (Currency.from_dict (dict_get "currency" PNone d)); [| reflexivity].
  cbn [bind]. eval_gets. reflexivity.
Qed.

(** ** TokenResponse *)

Lemma TokenResponse_from_dict_dict (d : dict) :
  TokenResponse.from_dict (PDict d) =
  access_token <- getitem (PDict d) "accessToken" ;;
  access_exp <- getitem (PDict d) "accessTokenExpirationDate" ;;
  refresh_token <- getitem (PDict d) "refreshToken" ;;
  refresh_exp <- getitem (PDict d) "refreshTokenExpirationDate" ;;
  Ok (TokenResponse.mk access_token (parsed access_exp) refresh_token
        (parsed refresh_exp) (dict_get "userId" PNone d)).
Proof.
  unfold TokenResponse.from_dict.
  destruct (getitem (PDict d) "accessToken"); [| reflexivity]. cbn [bind].
  destruct (getitem (PDict d) "accessTokenExpirationDate"); [| reflexivity].
  cbn [bind]. rewrite parse_datetime_parsed. cbn [bind].
  destruct (getitem (PDict d) "refreshToken"); [| reflexivity]. cbn [bind].
  destruct (getitem (PDict d) "refreshTokenExpirationDate"); [| reflexivity].
  cbn [bind]. rewrite parse_datetime_parsed. cbn [bind].
  rewrite get_dict. reflexivity.
Qed.

Lemma Forall2_nth_error {A B : Type} (R : A -> B -> Prop) (l : list A) (l' : list B) :
  Forall2 R l l' ->
  forall n x, nth_error l n = Some x -> exists y, nth_error l' n = Some y /\ R x y.
Proof.
  induction 1 as [| a b l l' Hab Hrest IH]; intros n x Hn.
  - destruct n; discriminate.
  - destruct n as [| n]; simpl in *.
    + injection Hn as <-. exists b. split; [reflexivity | exact Hab].
    + apply IH. exact Hn.
Qed.

(** * The claims *)

(** C1, as stated, fails for ChargePoint: a mapping that has its "id" is
    still rejected with the missing-field error when a listed charge has
    none. *)
Lemma ChargePoint_nested_charge_without_id :
  has_key "id" [("id", PInt 1); ("charges", PList [PDict [("state", PStr "charging")]])]
  = true /\
  ChargePoint.from_dict
    (PDict [("id", PInt 1); ("charges", PList [PDict [("state", PStr "charging")]])])
  = Raise (KeyError "id").
Proof. split; reflexivity. Qed.

(** C1, amended.  Decoding a Charge or a WalletTransaction fails with the
    missing-field error exactly when the mapping lacks "id"; a Charge then
    decodes whenever "id" is present, a WalletTransaction whenever "id" is
    present and both currency values are absent, false or mappings.  For a
    ChargePoint whose "charges" value is absent, false or a list of
    mappings, decoding succeeds exactly when the mapping and every listed
    charge have an "id", and fails with the missing-field error otherwise.
    Removing a key other than "id" from a mapping that decodes never makes
    decoding fail. *)
Theorem required_id :
  (forall d,
     missing_field "id" (Charge.from_dict (PDict d)) = negb (has_key "id" d) /\
     is_ok (Charge.from_dict (PDict d)) = has_key "id" d) /\
  (forall d,
     missing_field "id" (WalletTransaction.from_dict (PDict d))
     = negb (has_key "id" d) /\
     is_ok (WalletTransaction.from_dict (PDict d))
     = has_key "id" d &&
       value_object_source (dict_get "fromCurrency" PNone d) &&
       value_object_source (dict_get "toCurrency" PNone d)) /\
  (forall d ms, charges_are d ms ->
     missing_field "id" (ChargePoint.from_dict (PDict d))
     = negb (has_key "id" d && forallb (has_key "id") ms) /\
     is_ok (ChargePoint.from_dict (PDict d))
     = has_key "id" d && forallb (has_key "id") ms) /\
  (forall d k, k <> "id" ->
     (is_ok (Charge.from_dict (PDict d)) = true ->
      is_ok (Charge.from_dict (PDict (dict_remove k d))) = true) /\
     (is_ok (WalletTransaction.from_dict (PDict d)) = true ->
      is_ok (WalletTransaction.from_dict (PDict (dict_remove k d))) = true) /\
     (is_ok (ChargePoint.from_dict (PDict d)) = true ->
      is_ok (ChargePoint.from_dict (PDict (dict_remove k d))) = true)).
Proof.
  split; [| split; [| split]].
  - intros d. split; [apply Charge_missing_id | apply Charge_is_ok].
  - intros d. split; [apply WalletTransaction_missing_id | apply WalletTransaction_is_ok].
  - intros d ms Hms.
    rewrite ChargePoint_from_dict_dict, (charges_of_mappings d ms Hms).
    pose proof (comprehension_charges ms) as Hcs. unfold has_key at 1 3.
    destruct (forallb (has_key "id") ms).
    + destruct Hcs as (cs & -> & _). cbn [bind].
      destruct (dict_lookup "id" d); split; reflexivity.
    + rewrite Hcs. cbn [bind missing_field is_ok].
      rewrite !andb_false_r. split; reflexivity.
  - intros d k Hk. split; [| split].
    + rewrite !Charge_is_ok, has_key_remove_other by exact Hk. trivial.
    + rewrite !WalletTransaction_is_ok, has_key_remove_other by exact Hk.
      rewrite !dict_get_remove. intros H.
      apply andb_prop in H. destruct H as [H H3].
      apply andb_prop in H. destruct H as [H1 H2].
      rewrite H1. cbn [andb].
      destruct (k =? "fromCurrency")%string; destruct (k =? "toCurrency")%string;
        rewrite ?H2, ?H3; reflexivity.
    + rewrite !ChargePoint_is_ok, has_key_remove_other by exact Hk. intros H.
      apply andb_prop in H. destruct H as [H1 H2].
      rewrite (charges_of_remove k d H1), H2. reflexivity.
Qed.

(** A ChargePoint with a charge that lacks its id, and a Charge that loses
    its state key. *)
Lemma required_id_witness :
  charges_are
    [("id", PInt 1); ("charges", PList [PDict [("id", PInt 7)]; PDict []])]
    [[("id", PInt 7)]; []] /\
  missing_field "id"
    (ChargePoint.from_dict
       (PDict [("id", PInt 1); ("charges", PList [PDict [("id", PInt 7)]; PDict []])]))
  = true /\
  "state" <> "id" /\
  is_ok (Charge.from_dict (PDict [("id", PInt 1); ("state", PStr "charging")])) = true /\
  is_ok (Charge.from_dict
           (PDict (dict_remove "state" [("id", PInt 1); ("state", PStr "charging")])))
  = true.
Proof.
  destruct required_id as (_ & _ & Hcp & Hrm).
  assert (Hms : charges_are
            [("id", PInt 1); ("charges", PList [PDict [("id", PInt 7)]; PDict []])]
            [[("id", PInt 7)]; []]) by (left; reflexivity).
  assert (Hne : "state" <> "id") by discriminate.
  split; [exact Hms |].
  split; [exact (proj1 (Hcp _ _ Hms)) |].
  split; [exact Hne |].
  split; [reflexivity |].
  exact (proj1 (Hrm [("id", PInt 1); ("state", PStr "charging")] "state" Hne) eq_refl).
Defined.

(** C2 (failing input).  The class declares both expiration dates as
    [datetime], yet [from_dict] accepts a mapping whose access-token
    expiration date is not a timestamp and stores [None] in the field.
    Decoding succeeds exactly when the four required keys are present,
    whatever the two expiration values are. *)
Theorem TokenResponse_unparsable_expiration :
  TokenResponse.from_dict
    (PDict [("accessToken", PStr "abc");
            ("accessTokenExpirationDate", PStr "not-a-date");
            ("refreshToken", PStr "def");
            ("refreshTokenExpirationDate", PStr "2024-01-15T10:30:00Z")])
  = Ok (TokenResponse.mk (PStr "abc") None (PStr "def") (Some jan15_utc) PNone) /\
  (forall d,
     is_ok (TokenResponse.from_dict (PDict d))
     = has_key "accessToken" d && has_key "accessTokenExpirationDate" d &&
       has_key "refreshToken" d && has_key "refreshTokenExpirationDate" d).
Proof.
  split; [reflexivity |].
  intros d. rewrite TokenResponse_from_dict_dict. unfold getitem, has_key.
  destruct (dict_lookup "accessToken" d); [| reflexivity].
  destruct (dict_lookup "accessTokenExpirationDate" d); [| reflexivity].
  destruct (dict_lookup "refreshToken" d); [| reflexivity].
  destruct (dict_lookup "refreshTokenExpirationDate" d); reflexivity.
Qed.


(** A datetime object whose offset is one microsecond also changes on the
    way: its offset is written out in full and read back as UTC. *)
Example Charge_roundtrip_subsecond_offset :
  Charge.from_dict
    (Charge.to_dict
       (Charge.mk (PInt 1) (PStr "")
          (Some (mk_datetime 2024 1 15 10 30 0 0 (Some 1) eq_refl eq_refl))
          None None None None None None None))
  = Ok (Charge.mk (PInt 1) (PStr "") (Some jan15_utc)
          None None None None None None None).
Proof. reflexivity. Qed.



(** C4.  The normalizer maps "2024-01-15T10:30:00Z" and
    "2024-01-15T10:30:00+00:00" to the same UTC instant, maps the
    offset-free "2024-01-15T10:30:00" to that instant stamped as UTC, and
    maps [None], the empty string and "not-a-date" to an absent result. *)
Theorem parse_datetime_examples :
  _parse_datetime (PStr "2024-01-15T10:30:00Z") = Ok (Some jan15_utc) /\
  _parse_datetime (PStr "2024-01-15T10:30:00+00:00") = Ok (Some jan15_utc) /\
  _parse_datetime (PStr "2024-01-15T10:30:00") = Ok (Some jan15_utc) /\
  tzinfo jan15_utc = Some utc /\
  _parse_datetime PNone = Ok None /\
  _parse_datetime (PStr "") = Ok None /\
  _parse_datetime (PStr "not-a-date") = Ok None.
Proof. repeat split; reflexivity. Qed.

(** C5, as stated, fails: a datetime object without timezone is handed back
    as it is, so the result is not timezone-aware. *)
Lemma parse_datetime_naive_unchanged :
  _parse_datetime (PDatetime jan15_naive) = Ok (Some jan15_naive) /\
  aware jan15_naive = false.
Proof. split; reflexivity. Qed.

(** C5, amended.  Every non-absent result that the normalizer produces from
    an input other than a datetime object is timezone-aware, and a string
    that parses without offset gives the parsed datetime stamped as UTC; a
    datetime object is returned unchanged, timezone-aware or not. *)
Theorem parse_datetime_aware :
  (forall v dt, is_datetime v = false -> _parse_datetime v = Ok (Some dt) ->
     aware dt = true) /\
  (forall s dt, s <> "" ->
     fromisoformat (str_replace s "Z" "+00:00") = Ok dt -> tzinfo dt = None ->
     _parse_datetime (PStr s) = Ok (Some (replace_tzinfo_utc dt)) /\
     tzinfo (replace_tzinfo_utc dt) = Some utc) /\
  (forall dt, _parse_datetime (PDatetime dt) = Ok (Some dt)).
Proof.
  split; [| split].
  - intros v dt Hv. rewrite parse_datetime_total.
    destruct v; try discriminate.
    destruct (fromisoformat _) as [dt0 |]; [| discriminate].
    intros [= <-]. apply stamp_utc_aware.
  - intros s dt Hs Hparse Htz. split; [| reflexivity].
    rewrite parse_datetime_str, Hparse. unfold stamp_utc. rewrite Htz.
    destruct s; [contradiction | reflexivity].
  - reflexivity.
Qed.

(** The offset-free example string of the specification. *)
Lemma parse_datetime_aware_witness :
  is_datetime (PStr "2024-01-15T10:30:00") = false /\
  _parse_datetime (PStr "2024-01-15T10:30:00") = Ok (Some jan15_utc) /\
  aware jan15_utc = true /\
  "2024-01-15T10:30:00" <> "" /\
  fromisoformat (str_replace "2024-01-15T10:30:00" "Z" "+00:00") = Ok jan15_naive /\
  tzinfo jan15_naive = None /\
  _parse_datetime (PStr "2024-01-15T10:30:00")
  = Ok (Some (replace_tzinfo_utc jan15_naive)).
Proof.
  assert (Hne : "2024-01-15T10:30:00" <> "") by discriminate.
  split; [reflexivity |]. split; [reflexivity |].
  split; [exact (proj1 parse_datetime_aware
                   (PStr "2024-01-15T10:30:00") jan15_utc eq_refl eq_refl) |].
  split; [exact Hne |]. split; [reflexivity |]. split; [reflexivity |].
  exact (proj1 (proj1 (proj2 parse_datetime_aware)
                  "2024-01-15T10:30:00" jan15_naive Hne eq_refl eq_refl)).
Defined.

(** C6.  For every input value the normalizer returns an instant or an
    absent result and never raises; a value that is neither a string nor a
    datetime object, and a string that does not parse, give the absent
    result. *)
Theorem parse_datetime_never_raises :
  (forall v, exists r, _parse_datetime v = Ok r) /\
  (forall v, is_str v = false -> is_datetime v = false ->
     _parse_datetime v = Ok None) /\
  (forall s e, fromisoformat (str_replace s "Z" "+00:00") = Raise e ->
     _parse_datetime (PStr s) = Ok None).
Proof.
  split; [| split].
  - intros v. eexists. apply parse_datetime_parsed.
  - intros v Hs Hd. rewrite parse_datetime_total.
    destruct v; try discriminate; reflexivity.
  - intros s e Hparse. rewrite parse_datetime_total, Hparse. reflexivity.
Qed.

(** A number and an unparsable string. *)
Lemma parse_datetime_never_raises_witness :
  is_str (PInt 5) = false /\ is_datetime (PInt 5) = false /\
  _parse_datetime (PInt 5) = Ok None /\
  fromisoformat (str_replace "not-a-date" "Z" "+00:00") = Raise ValueError /\
  _parse_datetime (PStr "not-a-date") = Ok None.
Proof.
  split; [reflexivity |]. split; [reflexivity |].
  split; [exact (proj1 (proj2 parse_datetime_never_raises) (PInt 5) eq_refl eq_refl) |].
  split; [reflexivity |].
  exact (proj2 (proj2 parse_datetime_never_raises) "not-a-date" ValueError eq_refl).
Defined.

(** The two decoding examples of the specification. *)
Example Charge_example :
  Charge.from_dict (PDict [("id", PInt 42); ("state", PStr "charging");
                           ("startedAt", PStr "2024-03-01T08:00:00Z")])
  = Ok (Charge.mk (PInt 42) (PStr "charging") None None
          (Some (mk_datetime 2024 3 1 8 0 0 0 (Some utc) eq_refl eq_refl))
          None None None None None).
Proof. reflexivity. Qed.

Example WalletTransaction_example :
  WalletTransaction.from_dict
    (PDict [("id", PInt 7); ("fromAmount", PFloat 12.5); ("toAmount", PFloat 12.5);
            ("exchangeRate", PFloat 1)])
  = Ok (WalletTransaction.mk (PInt 7) (PStr "") (PStr "") (PFloat 12.5) None
          (PFloat 12.5) None (PFloat 1) PNone PNone PNone PNone None None None).
Proof. reflexivity. Qed.

Example ChargePoint_example :
  option_map (fun cp => map Charge.id (ChargePoint.charges cp))
    (match ChargePoint.from_dict
             (PDict [("id", PInt 9);
                     ("charges", PList [PDict [("id", PInt 1)]; PDict [("id", PInt 2)]])])
     with
     | Ok cp => Some cp
     | Raise _ => None
     end)
  = Some [PInt 1; PInt 2].
Proof. reflexivity. Qed.

(** C7.  Decoding a Currency or a Balance from [None] or from an empty
    mapping gives an absent result; decoding from a non-empty mapping gives
    an object in which each sub-key that is missing is replaced by its
    default (decimals 2, amounts 0.0, strings empty), whatever keys the
    mapping has. *)
Theorem value_objects_absent_or_defaulted :
  Currency.from_dict PNone = Ok None /\
  Currency.from_dict (PDict []) = Ok None /\
  Balance.from_dict PNone = Ok None /\
  Balance.from_dict (PDict []) = Ok None /\
  (forall kv d,
     Currency.from_dict (PDict (kv :: d))
     = Ok (Some (Currency.mk (dict_get "identifier" (PStr "") (kv :: d))
                             (dict_get "name" (PStr "") (kv :: d))
                             (dict_get "decimals" (PInt 2) (kv :: d))))) /\
  (forall kv d,
     Balance.from_dict (PDict (kv :: d))
     = Ok (Some (Balance.mk (dict_get "amount" (PFloat 0) (kv :: d))
                            (dict_get "credit" (PFloat 0) (kv :: d))))).
Proof.
  repeat split; try reflexivity.
  - intros kv d. rewrite Currency_from_dict_cases. reflexivity.
  - intros kv d. rewrite Balance_from_dict_cases. reflexivity.
Qed.

(** C8, as stated, fails: with its "charges" key holding an empty list, a
    mapping without "id" is still rejected. *)
Lemma ChargePoint_empty_charges_without_id :
  dict_lookup "charges" [("name", PStr "Garage"); ("charges", PList [])]
  = Some (PList []) /\
  ChargePoint.from_dict (PDict [("name", PStr "Garage"); ("charges", PList [])])
  = Raise (KeyError "id").
Proof. split; reflexivity. Qed.

(** C8, amended.  For a mapping that has its "id": when the "charges" key
    is absent or holds an empty list, the ChargePoint decodes with an empty
    charges sequence; when it holds a non-empty list of charge mappings
    that each have their "id", the ChargePoint decodes with a sequence of
    the same length whose n-th element is the decoded n-th mapping. *)
Theorem ChargePoint_charges_sequence (d : dict) (i : pyval) :
  dict_lookup "id" d = Some i ->
  (dict_lookup "charges" d = None \/ dict_lookup "charges" d = Some (PList []) ->
   exists cp, ChargePoint.from_dict (PDict d) = Ok cp /\
              ChargePoint.charges cp = []) /\
  (forall ms, ms <> [] ->
     dict_lookup "charges" d = Some (PList (map PDict ms)) ->
     forallb (has_key "id") ms = true ->
     exists cp, ChargePoint.from_dict (PDict d) = Ok cp /\
       List.length (ChargePoint.charges cp) = List.length ms /\
       forall n m, nth_error ms n = Some m ->
         exists c, nth_error (ChargePoint.charges cp) n = Some c /\
                   Charge.from_dict (PDict m) = Ok c).
Proof.
  intros Hid. split.
  - intros Hch. rewrite ChargePoint_from_dict_dict, Hid.
    assert (Hnone : charges_of d = Ok []).
    { unfold charges_of, dict_get. destruct Hch as [-> | ->]; reflexivity. }
    rewrite Hnone. cbn [bind]. eexists. split; reflexivity.
  - intros ms _ Hch Hids. rewrite ChargePoint_from_dict_dict, Hid.
    rewrite (charges_of_mappings d ms) by (left; exact Hch).
    pose proof (comprehension_charges ms) as Hcs. rewrite Hids in Hcs.
    destruct Hcs as (cs & -> & Hall). cbn [bind].
    eexists. split; [reflexivity |]. cbn [ChargePoint.charges]. split.
    + symmetry. exact (Forall2_length Hall).
    + intros n m Hn. exact (Forall2_nth_error _ _ _ Hall n m Hn).
Qed.

(** A ChargePoint with two charges. *)
Lemma ChargePoint_charges_sequence_witness :
  dict_lookup "id" [("id", PInt 9);
                    ("charges", PList (map PDict [[("id", PInt 1)]; [("id", PInt 2)]]))]
  = Some (PInt 9) /\
  exists cp,
    ChargePoint.from_dict
      (PDict [("id", PInt 9);
              ("charges", PList (map PDict [[("id", PInt 1)]; [("id", PInt 2)]]))])
    = Ok cp /\
    List.length (ChargePoint.charges cp) = 2%nat.
Proof.
  split; [reflexivity |].
  destruct (proj2 (ChargePoint_charges_sequence
                     [("id", PInt 9);
                      ("charges", PList (map PDict [[("id", PInt 1)]; [("id", PInt 2)]]))]
                     (PInt 9) eq_refl)
                  [[("id", PInt 1)]; [("id", PInt 2)]]
                  ltac:(discriminate) eq_refl eq_refl)
    as (cp & Hcp & Hlen & _).
  exists cp. split; [exact Hcp | exact Hlen].
Defined.

Lemma Wallet_from_dict_ok (d : dict) :
  value_object_source (dict_get "balance" PNone d) = true ->
  value_object_source (dict_get "currency" PNone d) = true ->
  exists b c,
    Balance.from_dict (dict_get "balance" PNone d) = Ok b /\
    Currency.from_dict (dict_get "currency" PNone d) = Ok c /\
    Wallet.from_dict (PDict d)
    = Ok (Wallet.mk (dict_get "id" (PInt 0) d) (dict_get "ownerType" (PStr "") d)
            b c (dict_get "status" (PStr "") d)).
Proof.
  intros Hb Hc. rewrite Wallet_from_dict_dict.
  rewrite <- Balance_is_ok in Hb. rewrite <- Currency_is_ok in Hc.
  destruct (Balance.from_dict (dict_get "balance" PNone d)) as [b |]; [| discriminate].
  destruct (Currency.from_dict (dict_get "currency" PNone d)) as [c |]; [| discriminate].
  exists b, c. repeat split.
Qed.

(** C9, as stated, fails: a mapping whose "balance" is a number is rejected,
    because a number has no [get]. *)
Lemma Wallet_rejects_number_balance :
  Wallet.from_dict (PDict [("id", PInt 1); ("balance", PInt 5)])
  = Raise AttributeError.
Proof. reflexivity. Qed.

(** C9, amended.  Decoding a Wallet never fails with a missing-field error,
    and it succeeds exactly when the "balance" and "currency" values are
    absent, false or mappings.  It then replaces each missing key by its
    default (0 for "id", the empty string for "ownerType" and "status"),
    and an absent "balance" or "currency" gives an absent value object. *)
Theorem Wallet_decodable :
  (forall d k, missing_field k (Wallet.from_dict (PDict d)) = false) /\
  (forall d,
     is_ok (Wallet.from_dict (PDict d))
     = value_object_source (dict_get "balance" PNone d) &&
       value_object_source (dict_get "currency" PNone d)) /\
  (forall d,
     value_object_source (dict_get "balance" PNone d) = true ->
     value_object_source (dict_get "currency" PNone d) = true ->
     exists w, Wallet.from_dict (PDict d) = Ok w /\
       Wallet.id w = dict_get "id" (PInt 0) d /\
       Wallet.owner_type w = dict_get "ownerType" (PStr "") d /\
       Wallet.status w = dict_get "status" (PStr "") d /\
       (dict_lookup "balance" d = None -> Wallet.balance w = None) /\
       (dict_lookup "currency" d = None -> Wallet.currency w = None)).
Proof.
  split; [| split].
  - intros d k. rewrite Wallet_from_dict_dict.
    pose proof (Balance_never_missing k (dict_get "balance" PNone d)) as Hb.
    pose proof (Currency_never_missing k (dict_get "currency" PNone d)) as Hc.
    destruct (Balance.from_dict (dict_get "balance" PNone d)); [| exact Hb].
    destruct (Currency.from_dict (dict_get "currency" PNone d)); [reflexivity | exact Hc].
  - intros d. rewrite Wallet_from_dict_dict, <- Balance_is_ok, <- Currency_is_ok.
    destruct (Balance.from_dict (dict_get "balance" PNone d)); [| reflexivity].
    destruct (Currency.from_dict (dict_get "currency" PNone d)); reflexivity.
  - intros d Hb Hc.
    destruct (Wallet_from_dict_ok d Hb Hc) as (b & c & Eb & Ec & ->).
    eexists. split; [reflexivity |].
    cbn [Wallet.id Wallet.owner_type Wallet.status Wallet.balance Wallet.currency].
    repeat split.
    + intros Hnone. unfold dict_get in Eb. rewrite Hnone in Eb. now injection Eb as <-.
    + intros Hnone. unfold dict_get in Ec. rewrite Hnone in Ec. now injection Ec as <-.
Qed.

(** A Wallet mapping with nothing but an owner type. *)
Lemma Wallet_decodable_witness :
  value_object_source (dict_get "balance" PNone [("ownerType", PStr "TEAM")]) = true /\
  value_object_source (dict_get "currency" PNone [("ownerType", PStr "TEAM")]) = true /\
  exists w,
    Wallet.from_dict (PDict [("ownerType", PStr "TEAM")]) = Ok w /\
    Wallet.id w = PInt 0 /\ Wallet.owner_type w = PStr "TEAM" /\
    Wallet.status w = PStr "" /\
    Wallet.balance w = None /\ Wallet.currency w = None.
Proof.
  split; [reflexivity |]. split; [reflexivity |].
  destruct (proj2 (proj2 Wallet_decodable) [("ownerType", PStr "TEAM")] eq_refl eq_refl)
    as (w & Hw & Hid & Hown & Hst & Hb & Hc).
  exists w. repeat split; try assumption.
  - exact (Hb eq_refl).
  - exact (Hc eq_refl).
Defined.

(** C10, as stated, fails: a mapping without "id" whose "balance" is a
    number yields no record. *)
Lemma Wallet_without_id_rejects_number_balance :
  dict_lookup "id" [("balance", PInt 5)] = None /\
  Wallet.from_dict (PDict [("balance", PInt 5)]) = Raise AttributeError.
Proof. split; reflexivity. Qed.

(** C10, amended.  For every mapping that lacks the "id" key and whose
    "balance" and "currency" values are absent, false or mappings, decoding
    a Wallet yields a record whose id is 0; for every other mapping that
    lacks "id", decoding raises [AttributeError]. *)
Theorem Wallet_missing_id_zero (d : dict) :
  dict_lookup "id" d = None ->
  (value_object_source (dict_get "balance" PNone d) &&
   value_object_source (dict_get "currency" PNone d) = true ->
   exists w, Wallet.from_dict (PDict d) = Ok w /\ Wallet.id w = PInt 0) /\
  (value_object_source (dict_get "balance" PNone d) &&
   value_object_source (dict_get "currency" PNone d) = false ->
   Wallet.from_dict (PDict d) = Raise AttributeError).
Proof.
  intros Hid. split.
  - intros H. apply andb_prop in H. destruct H as [Hb Hc].
    destruct (Wallet_from_dict_ok d Hb Hc) as (b & c & _ & _ & Hw).
    eexists. split; [exact Hw |].
    cbn [Wallet.id]. unfold dict_get. rewrite Hid. reflexivity.
  - rewrite <- Balance_is_ok, <- Currency_is_ok, Wallet_from_dict_dict.
    rewrite Balance_from_dict_cases, Currency_from_dict_cases.
    destruct (negb (truthy (dict_get "balance" PNone d))).
    + destruct (negb (truthy (dict_get "currency" PNone d))); [discriminate |].
      destruct (dict_get "currency" PNone d); try reflexivity; discriminate.
    + destruct (dict_get "balance" PNone d); try reflexivity.
      destruct (negb (truthy (dict_get "currency" PNone d))); [discriminate |].
      destruct (dict_get "currency" PNone d); try reflexivity; discriminate.
Qed.

(** A Wallet mapping with a balance and no id. *)
Lemma Wallet_missing_id_zero_witness :
  dict_lookup "id" [("status", PStr "active"); ("balance", PDict [("amount", PInt 3)])]
  = None /\
  exists w,
    Wallet.from_dict
      (PDict [("status", PStr "active"); ("balance", PDict [("amount", PInt 3)])])
    = Ok w /\
    Wallet.id w = PInt 0.
Proof.
  split; [reflexivity |].
  exact (proj1 (Wallet_missing_id_zero
                  [("status", PStr "active"); ("balance", PDict [("amount", PInt 3)])]
                  eq_refl) eq_refl).
Defined.

(** * Further properties of the module *)

Lemma parsed_aware (v : pyval) :
  is_datetime v = false -> aware_opt (parsed v) = true.
Proof.
  intros Hv. unfold parsed. rewrite parse_datetime_total.
  destruct v; try reflexivity; try discriminate.
  destruct (fromisoformat _); [apply stamp_utc_aware | reflexivity].
Qed.

Lemma parsed_stable (v : pyval) :
  is_datetime v = false -> stable_opt (parsed v) = true.
Proof.
  intros Hv. unfold parsed. rewrite parse_datetime_total.
  destruct v; try reflexivity; try discriminate.
  destruct (fromisoformat _) as [dt |] eqn:Ep; [| reflexivity].
  cbn [stable_opt]. unfold stamp_utc.
  destruct (tzinfo dt) as [off |] eqn:Etz; [| reflexivity].
  apply (fromisoformat_stable _ _ Ep). unfold aware. now rewrite Etz.
Qed.

Lemma no_datetime_at_stable (ks : list string) (d : dict) (k : string) :
  no_datetime_at ks d = true -> In k ks ->
  stable_opt (parsed (dict_get k PNone d)) = true.
Proof.
  unfold no_datetime_at. rewrite forallb_forall. intros H Hk.
  apply parsed_stable. specialize (H k Hk).
  now destruct (is_datetime (dict_get k PNone d)).
Qed.

Lemma no_datetime_at_In (ks : list string) (d : dict) (k : string) :
  no_datetime_at ks d = true -> In k ks ->
  aware_opt (parsed (dict_get k PNone d)) = true.
Proof.
  unfold no_datetime_at. rewrite forallb_forall. intros H Hk.
  apply parsed_aware. specialize (H k Hk).
  now destruct (is_datetime (dict_get k PNone d)).
Qed.

Lemma stamp_utc_wall_clock (dt : datetime) : same_wall_clock (stamp_utc dt) dt.
Proof.
  unfold stamp_utc, same_wall_clock.
  destruct (tzinfo dt); repeat split; reflexivity.
Qed.



(** X2.  A trailing [Z] means the same as a trailing [+00:00], for every
    string: both spellings give the same result or are both rejected. *)
Theorem parse_datetime_Z_suffix (s : string) :
  _parse_datetime (PStr (s ++ "Z")) = _parse_datetime (PStr (s ++ "+00:00")).
Proof.
  rewrite !parse_datetime_str, !str_replace_append.
  change (str_replace "Z" "Z" "+00:00") with "+00:00".
  change (str_replace "+00:00" "Z" "+00:00") with "+00:00".
  destruct s; reflexivity.
Qed.

(** X3.  The normalizer never shifts a parsed time: the result has the date
    and time of day that the string spells, and a string with an explicit
    offset keeps that offset (it is not converted to UTC). *)
Theorem parse_datetime_keeps_wall_clock (s : string) (dt r : datetime) :
  fromisoformat (str_replace s "Z" "+00:00") = Ok dt ->
  _parse_datetime (PStr s) = Ok (Some r) ->
  same_wall_clock r dt /\ (aware dt = true -> r = dt).
Proof.
  intros Hparse. rewrite parse_datetime_str, Hparse.
  destruct s; [discriminate |]. intros [= <-].
  split; [apply stamp_utc_wall_clock | apply stamp_utc_id].
Qed.

(** A timestamp two hours east of UTC keeps its hour and its offset. *)
Lemma parse_datetime_keeps_wall_clock_witness :
  fromisoformat (str_replace "2024-01-15T10:30:00+02:00" "Z" "+00:00")
  = Ok (mk_datetime 2024 1 15 10 30 0 0 (Some 7200000000) eq_refl eq_refl) /\
  _parse_datetime (PStr "2024-01-15T10:30:00+02:00")
  = Ok (Some (mk_datetime 2024 1 15 10 30 0 0 (Some 7200000000) eq_refl eq_refl)) /\
  same_wall_clock
    (mk_datetime 2024 1 15 10 30 0 0 (Some 7200000000) eq_refl eq_refl)
    (mk_datetime 2024 1 15 10 30 0 0 (Some 7200000000) eq_refl eq_refl).
Proof.
  split; [reflexivity |]. split; [reflexivity |].
  exact (proj1 (parse_datetime_keeps_wall_clock
                  "2024-01-15T10:30:00+02:00" _ _ eq_refl eq_refl)).
Defined.

(** X4.  When no timestamp value of the mapping is a datetime object (as in
    every mapping that comes from JSON), the decoded Charge or
    WalletTransaction survives encoding and decoding unchanged. *)
Theorem roundtrip_exact_without_datetime_objects :
  (forall d x,
     no_datetime_at instant_keys_of_Charge d = true ->
     Charge.from_dict (PDict d) = Ok x ->
     Charge.from_dict (Charge.to_dict x) = Ok x) /\
  (forall d x,
     no_datetime_at instant_keys_of_WalletTransaction d = true ->
     WalletTransaction.from_dict (PDict d) = Ok x ->
     WalletTransaction.from_dict (WalletTransaction.to_dict x) = Ok x).
Proof.
  split; intros d x Hd Hx.
  - rewrite Charge_roundtrip. f_equal. apply Charge_restamped_stable.
    rewrite Charge_from_dict_dict in Hx.
    destruct (dict_lookup "id" d); [| discriminate]. injection Hx as <-.
    unfold Charge.all_stable. cbn [Charge.created_at Charge.updated_at
      Charge.started_at Charge.stopped_at Charge.cable_plugged_in_at
      Charge.fully_charged_at Charge.failed_at Charge.timeout_at].
    rewrite !(no_datetime_at_stable _ _ _ Hd) by (cbn; tauto). reflexivity.
  - rewrite WalletTransaction_roundtrip. f_equal.
    apply WalletTransaction_restamped_stable.
    rewrite WalletTransaction_from_dict_dict in Hx.
    destruct (dict_lookup "id" d); [| discriminate].
    destruct (Currency.from_dict (dict_get "fromCurrency" PNone d)); [| discriminate].
    destruct (Currency.from_dict (dict_get "toCurrency" PNone d)); [| discriminate].
    injection Hx as <-.
    unfold WalletTransaction.all_stable. cbn [WalletTransaction.created_at
      WalletTransaction.updated_at WalletTransaction.completed_at].
    rewrite !(no_datetime_at_stable _ _ _ Hd) by (cbn; tauto). reflexivity.
Qed.

(** A Charge with an offset-free timestamp string. *)
Lemma roundtrip_exact_without_datetime_objects_witness :
  no_datetime_at instant_keys_of_Charge
    [("id", PInt 3); ("stoppedAt", PStr "2024-01-15T10:30:00")] = true /\
  Charge.from_dict (PDict [("id", PInt 3); ("stoppedAt", PStr "2024-01-15T10:30:00")])
  = Ok (Charge.mk (PInt 3) (PStr "") None None None (Some jan15_utc)
          None None None None) /\
  Charge.from_dict
    (Charge.to_dict (Charge.mk (PInt 3) (PStr "") None None None (Some jan15_utc)
                       None None None None))
  = Ok (Charge.mk (PInt 3) (PStr "") None None None (Some jan15_utc)
          None None None None).
Proof.
  split; [reflexivity |]. split; [reflexivity |].
  exact (proj1 roundtrip_exact_without_datetime_objects
           [("id", PInt 3); ("stoppedAt", PStr "2024-01-15T10:30:00")] _
           eq_refl eq_refl).
Defined.



(** X6.  The value-object decoders have three outcomes, decided by the
    source alone: a false source ([None], an empty mapping, but also 0, an
    empty string or an empty list) gives an absent result; a non-empty
    mapping gives an object; any other value raises [AttributeError]. *)
Theorem value_object_outcomes (v : pyval) :
  (truthy v = false ->
   Currency.from_dict v = Ok None /\ Balance.from_dict v = Ok None) /\
  (truthy v = true -> is_mapping v = true ->
   exists c b, Currency.from_dict v = Ok (Some c) /\
               Balance.from_dict v = Ok (Some b)) /\
  (truthy v = true -> is_mapping v = false ->
   Currency.from_dict v = Raise AttributeError /\
   Balance.from_dict v = Raise AttributeError).
Proof.
  rewrite Currency_from_dict_cases, Balance_from_dict_cases.
  split; [| split].
  - intros ->. split; reflexivity.
  - intros -> Hm. destruct v; try discriminate. cbn [negb]. eauto.
  - intros -> Hm. destruct v; try discriminate; split; reflexivity.
Qed.

(** An empty string, a mapping with an unknown key and a number. *)
Lemma value_object_outcomes_witness :
  truthy (PStr "") = false /\ Currency.from_dict (PStr "") = Ok None /\
  truthy (PInt 5) = true /\ is_mapping (PInt 5) = false /\
  Balance.from_dict (PInt 5) = Raise AttributeError.
Proof.
  split; [reflexivity |].
  split; [exact (proj1 (proj1 (value_object_outcomes (PStr "")) eq_refl)) |].
  split; [reflexivity |]. split; [reflexivity |].
  exact (proj2 (proj2 (proj2 (value_object_outcomes (PInt 5))) eq_refl eq_refl)).
Defined.

(** ** What the decoders raise *)

Lemma comprehension_raise {A B : Type} (f : A -> result B) (l : list A) (e : exn) :
  comprehension f l = Raise e -> exists x, In x l /\ f x = Raise e.
Proof.
  induction l as [| x l IH]; simpl; [discriminate |].
  destruct (f x) as [y | e'] eqn:Ex; simpl.
  - destruct (comprehension f l) as [ys | e'']; simpl; [discriminate |].
    intros [= ->]. destruct (IH eq_refl) as (x' & Hin & Hx'). eauto.
  - intros [= ->]. eauto.
Qed.

(** The first element that fails decides; the elements after it are not
    looked at. *)
Lemma comprehension_first_failure {A B : Type} (f : A -> result B)
    (l1 : list A) (ys : list B) (x : A) (l2 : list A) (e : exn) :
  comprehension f l1 = Ok ys -> f x = Raise e ->
  comprehension f (l1 ++ x :: l2) = Raise e.
Proof.
  revert ys. induction l1 as [| a l1 IH]; intros ys Hl1 Hx; simpl.
  - rewrite Hx. reflexivity.
  - simpl in Hl1. destruct (f a); [| discriminate]. simpl in *.
    destruct (comprehension f l1) as [ys' |]; [| discriminate].
    rewrite (IH ys' eq_refl Hx). reflexivity.
Qed.

Lemma Charge_from_dict_raise (v : pyval) (e : exn) :
  Charge.from_dict v = Raise e -> e = KeyError "id" \/ e = TypeError.
Proof.
  destruct v as [| | | | | | d |];
    try (intros [= <-]; right; reflexivity).
  rewrite Charge_from_dict_dict.
  destruct (dict_lookup "id" d); [discriminate |].
  intros [= <-]. left. reflexivity.
Qed.

Lemma charges_of_raise (d : dict) (e : exn) :
  charges_of d = Raise e -> e = KeyError "id" \/ e = TypeError.
Proof.
  unfold charges_of. cbv zeta.
  destruct (truthy (dict_get "charges" (PList []) d)); [| discriminate].
  destruct (iterate (dict_get "charges" (PList []) d)) as [items | e'] eqn:Eit.
  - cbn [bind]. intros H. apply comprehension_raise in H.
    destruct H as (x & _ & Hx). exact (Charge_from_dict_raise x e Hx).
  - cbn [bind]. intros [= <-]. right.
    destruct (dict_get "charges" (PList []) d); simpl in Eit; congruence.
Qed.

Lemma TokenResponse_first_missing (d : dict) :
  match first_missing required_keys_of_TokenResponse d with
  | Some k => TokenResponse.from_dict (PDict d) = Raise (KeyError k)
  | None => is_ok (TokenResponse.from_dict (PDict d)) = true
  end.
Proof.
  rewrite TokenResponse_from_dict_dict.
  unfold required_keys_of_TokenResponse, first_missing, has_key, getitem.
  destruct (dict_lookup "accessToken" d); [| reflexivity].
  destruct (dict_lookup "accessTokenExpirationDate" d); [| reflexivity].
  destruct (dict_lookup "refreshToken" d); [| reflexivity].
  destruct (dict_lookup "refreshTokenExpirationDate" d); reflexivity.
Qed.

(** X7.  A decoded Wallet holds the mapping's own value for each plain key
    that is present, a null included (the default replaces a missing key
    only), and its balance and currency are what [Balance.from_dict] and
    [Currency.from_dict] return for the nested values. *)
Theorem Wallet_fields (d : dict) (w : Wallet.t) :
  Wallet.from_dict (PDict d) = Ok w ->
  (forall v, dict_lookup "id" d = Some v -> Wallet.id w = v) /\
  (forall v, dict_lookup "ownerType" d = Some v -> Wallet.owner_type w = v) /\
  (forall v, dict_lookup "status" d = Some v -> Wallet.status w = v) /\
  Balance.from_dict (dict_get "balance" PNone d) = Ok (Wallet.balance w) /\
  Currency.from_dict (dict_get "currency" PNone d) = Ok (Wallet.currency w).
Proof.
  rewrite Wallet_from_dict_dict.
  destruct (Balance.from_dict (dict_get "balance" PNone d)) as [b |]; [| discriminate].
  destruct (Currency.from_dict (dict_get "currency" PNone d)) as [c |]; [| discriminate].
  cbn [bind]. intros [= <-].
  cbn [Wallet.id Wallet.owner_type Wallet.status Wallet.balance Wallet.currency].
  unfold dict_get.
  repeat split; intros v ->; reflexivity.
Qed.

(** A Wallet with a null id and a balance that has only an amount. *)
Lemma Wallet_fields_witness :
  Wallet.from_dict (PDict [("id", PNone); ("balance", PDict [("amount", PInt 3)])])
  = Ok (Wallet.mk PNone (PStr "") (Some (Balance.mk (PInt 3) (PFloat 0))) None (PStr "")) /\
  dict_lookup "id" [("id", PNone); ("balance", PDict [("amount", PInt 3)])] = Some PNone /\
  Wallet.id (Wallet.mk PNone (PStr "") (Some (Balance.mk (PInt 3) (PFloat 0))) None (PStr ""))
  = PNone.
Proof.
  split; [reflexivity |]. split; [reflexivity |].
  exact (proj1 (Wallet_fields
                  [("id", PNone); ("balance", PDict [("amount", PInt 3)])]
                  _ eq_refl) PNone eq_refl).
Defined.

(** X8.  The exceptions that decoding a mapping can raise: a Charge only
    the missing-field error for "id"; a Wallet only [AttributeError]; a
    WalletTransaction one of these two; a ChargePoint the missing-field
    error for "id" or [TypeError]; a TokenResponse the missing-field error
    for one of its four required keys. *)
Theorem decoder_exceptions (d : dict) (e : exn) :
  (Charge.from_dict (PDict d) = Raise e -> e = KeyError "id") /\
  (Wallet.from_dict (PDict d) = Raise e -> e = AttributeError) /\
  (WalletTransaction.from_dict (PDict d) = Raise e ->
   e = KeyError "id" \/ e = AttributeError) /\
  (ChargePoint.from_dict (PDict d) = Raise e ->
   e = KeyError "id" \/ e = TypeError) /\
  (TokenResponse.from_dict (PDict d) = Raise e ->
   exists k, In k required_keys_of_TokenResponse /\ e = KeyError k).
Proof.
  assert (Hcur : forall v, Currency.from_dict v = Raise e -> e = AttributeError).
  { intros v. rewrite Currency_from_dict_cases.
    destruct (negb (truthy v)); [discriminate |]. destruct v; congruence. }
  assert (Hbal : forall v, Balance.from_dict v = Raise e -> e = AttributeError).
  { intros v. rewrite Balance_from_dict_cases.
    destruct (negb (truthy v)); [discriminate |]. destruct v; congruence. }
  split; [| split; [| split; [| split]]].
  - rewrite Charge_from_dict_dict.
    destruct (dict_lookup "id" d); congruence.
  - rewrite Wallet_from_dict_dict.
    destruct (Balance.from_dict (dict_get "balance" PNone d)) eqn:Eb;
      [| cbn [bind]; intros [= <-]; exact (Hbal _ Eb)].
    destruct (Currency.from_dict (dict_get "currency" PNone d)) eqn:Ec;
      [discriminate | cbn [bind]; intros [= <-]; exact (Hcur _ Ec)].
  - rewrite WalletTransaction_from_dict_dict.
    destruct (dict_lookup "id" d); [| intros [= <-]; left; reflexivity].
    destruct (Currency.from_dict (dict_get "fromCurrency" PNone d)) eqn:E1;
      [| cbn [bind]; intros [= <-]; right; exact (Hcur _ E1)].
    destruct (Currency.from_dict (dict_get "toCurrency" PNone d)) eqn:E2;
      [discriminate | cbn [bind]; intros [= <-]; right; exact (Hcur _ E2)].
  - rewrite ChargePoint_from_dict_dict.
    destruct (charges_of d) eqn:Ech;
      [| cbn [bind]; intros [= <-]; exact (charges_of_raise d _ Ech)].
    cbn [bind]. destruct (dict_lookup "id" d); [discriminate |].
    intros [= <-]. left. reflexivity.
  - pose proof (TokenResponse_first_missing d) as H.
    destruct (first_missing required_keys_of_TokenResponse d) as [k |] eqn:Ek.
    + rewrite H. intros [= <-]. exists k. split; [| reflexivity].
      unfold required_keys_of_TokenResponse, first_missing in Ek.
      repeat match type of Ek with
             | (if ?c then _ else _) = _ => destruct c
             end; try discriminate; injection Ek as <-; simpl; tauto.
    + intros Hr. rewrite Hr in H. discriminate.
Qed.

(** A Wallet with a number for its currency, and a TokenResponse without
    its refresh token. *)
Lemma decoder_exceptions_witness :
  Wallet.from_dict (PDict [("currency", PInt 5)]) = Raise AttributeError /\
  TokenResponse.from_dict
    (PDict [("accessToken", PStr "abc");
            ("accessTokenExpirationDate", PStr "2024-01-15T10:30:00Z")])
  = Raise (KeyError "refreshToken") /\
  exists k, In k required_keys_of_TokenResponse /\
            KeyError "refreshToken" = KeyError k.
Proof.
  split; [reflexivity |]. split; [reflexivity |].
  exact (proj2 (proj2 (proj2 (proj2
           (decoder_exceptions
              [("accessToken", PStr "abc");
               ("accessTokenExpirationDate", PStr "2024-01-15T10:30:00Z")]
              (KeyError "refreshToken"))))) eq_refl).
Defined.

(** X9.  A value that is not a mapping is rejected by every entity
    decoder: with [TypeError] by those that read a required key first
    (Charge, WalletTransaction, TokenResponse), with [AttributeError] by
    those that start with [get] (Wallet, ChargePoint). *)
Theorem decoders_reject_non_mappings (v : pyval) :
  is_mapping v = false ->
  Charge.from_dict v = Raise TypeError /\
  WalletTransaction.from_dict v = Raise TypeError /\
  TokenResponse.from_dict v = Raise TypeError /\
  Wallet.from_dict v = Raise AttributeError /\
  ChargePoint.from_dict v = Raise AttributeError.
Proof. destruct v; try discriminate; intros _; repeat split. Qed.

(** A list and [None]. *)
Lemma decoders_reject_non_mappings_witness :
  is_mapping (PList [PInt 1]) = false /\
  Charge.from_dict (PList [PInt 1]) = Raise TypeError /\
  Wallet.from_dict (PList [PInt 1]) = Raise AttributeError.
Proof.
  split; [reflexivity |].
  destruct (decoders_reject_non_mappings (PList [PInt 1]) eq_refl)
    as (Hc & _ & _ & Hw & _).
  split; [exact Hc | exact Hw].
Defined.

(** X10.  A TokenResponse mapping that lacks a required key is rejected
    with the missing-field error for the first key it lacks, in the order
    accessToken, accessTokenExpirationDate, refreshToken,
    refreshTokenExpirationDate; a mapping that has all four decodes, with
    or without "userId". *)
Theorem TokenResponse_first_missing_key (d : dict) :
  match first_missing required_keys_of_TokenResponse d with
  | Some k => TokenResponse.from_dict (PDict d) = Raise (KeyError k)
  | None => is_ok (TokenResponse.from_dict (PDict d)) = true
  end.
Proof. apply TokenResponse_first_missing. Qed.

(** X11.  When neither expiration value of the mapping is a datetime
    object, each expiration date of the decoded TokenResponse is
    timezone-aware or absent. *)
Theorem TokenResponse_expirations_aware (d : dict) (t : TokenResponse.t) :
  no_datetime_at ["accessTokenExpirationDate"; "refreshTokenExpirationDate"] d = true ->
  TokenResponse.from_dict (PDict d) = Ok t ->
  aware_opt (TokenResponse.access_token_expiration_date t) = true /\
  aware_opt (TokenResponse.refresh_token_expiration_date t) = true.
Proof.
  intros Hd. rewrite TokenResponse_from_dict_dict. unfold getitem.
  pose proof (no_datetime_at_In _ d "accessTokenExpirationDate" Hd) as Ha.
  pose proof (no_datetime_at_In _ d "refreshTokenExpirationDate" Hd) as Hr.
  unfold dict_get in Ha, Hr.
  destruct (dict_lookup "accessToken" d); [| discriminate].
  destruct (dict_lookup "accessTokenExpirationDate" d); [| discriminate].
  destruct (dict_lookup "refreshToken" d); [| discriminate].
  destruct (dict_lookup "refreshTokenExpirationDate" d); [| discriminate].
  cbn [bind]. intros [= <-].
  split; [apply Ha | apply Hr]; simpl; tauto.
Qed.

(** A token pair whose refresh expiration has no offset. *)
Lemma TokenResponse_expirations_aware_witness :
  no_datetime_at ["accessTokenExpirationDate"; "refreshTokenExpirationDate"]
    [("accessToken", PStr "abc");
     ("accessTokenExpirationDate", PStr "2024-01-15T10:30:00Z");
     ("refreshToken", PStr "def");
     ("refreshTokenExpirationDate", PStr "2024-01-15T10:30:00")] = true /\
  TokenResponse.from_dict
    (PDict [("accessToken", PStr "abc");
            ("accessTokenExpirationDate", PStr "2024-01-15T10:30:00Z");
            ("refreshToken", PStr "def");
            ("refreshTokenExpirationDate", PStr "2024-01-15T10:30:00")])
  = Ok (TokenResponse.mk (PStr "abc") (Some jan15_utc) (PStr "def")
          (Some jan15_utc) PNone) /\
  aware_opt (Some jan15_utc) = true.
Proof.
  split; [reflexivity |]. split; [reflexivity |].
  exact (proj2 (TokenResponse_expirations_aware
                  [("accessToken", PStr "abc");
                   ("accessTokenExpirationDate", PStr "2024-01-15T10:30:00Z");
                   ("refreshToken", PStr "def");
                   ("refreshTokenExpirationDate", PStr "2024-01-15T10:30:00")]
                  _ eq_refl eq_refl)).
Defined.

(** ** The charges of a ChargePoint *)

Lemma charges_of_not_a_list (d : dict) (v : pyval) :
  dict_lookup "charges" d = Some v -> truthy v = true -> is_list v = false ->
  charges_of d = Raise TypeError.
Proof.
  intros Hv Ht Hl. unfold charges_of, dict_get. rewrite Hv. cbv zeta. rewrite Ht.
  destruct v as [| b | n | x | s | l | items | dt]; try discriminate; try reflexivity.
  - destruct s; [discriminate | reflexivity].
  - destruct items as [| [k w] items]; [discriminate | reflexivity].
Qed.

Lemma lookup_cons_other (k k' : string) (v : pyval) (d : dict) :
  (k =? k')%string = false -> dict_lookup k' ((k, v) :: d) = dict_lookup k' d.
Proof. intros H. simpl. now rewrite String.eqb_sym, H. Qed.

Lemma mentions_cons (k k' : string) (keys : list string) :
  mentions k (k' :: keys) = false ->
  (k =? k')%string = false /\ mentions k keys = false.
Proof. unfold mentions. simpl. apply orb_false_elim. Qed.

(** Replaces every lookup in the extended mapping by the lookup in the
    mapping itself, for the keys that [H] lists. *)
Ltac skip_unknown_key H :=
  repeat (apply mentions_cons in H;
          let E := fresh "E" in
          destruct H as [E H];
          rewrite ?(lookup_cons_other _ _ _ _ E)).

(** X12.  A ChargePoint mapping that has its "id" and whose "charges" value
    is false in any way (null, an empty list, an empty mapping, an empty
    string, zero) decodes with an empty charges sequence. *)
Theorem ChargePoint_false_charges (d : dict) (i : pyval) :
  dict_lookup "id" d = Some i ->
  truthy (dict_get "charges" (PList []) d) = false ->
  exists cp, ChargePoint.from_dict (PDict d) = Ok cp /\
             ChargePoint.id cp = i /\ ChargePoint.charges cp = [].
Proof.
  intros Hid Hfalse. rewrite ChargePoint_from_dict_dict, Hid.
  unfold charges_of. cbv zeta. rewrite Hfalse. cbn [bind].
  eexists. repeat split.
Qed.

(** A ChargePoint whose charges are null. *)
Lemma ChargePoint_false_charges_witness :
  dict_lookup "id" [("id", PInt 4); ("charges", PNone)] = Some (PInt 4) /\
  truthy (dict_get "charges" (PList []) [("id", PInt 4); ("charges", PNone)]) = false /\
  exists cp, ChargePoint.from_dict (PDict [("id", PInt 4); ("charges", PNone)]) = Ok cp /\
             ChargePoint.id cp = PInt 4 /\ ChargePoint.charges cp = [].
Proof.
  split; [reflexivity |]. split; [reflexivity |].
  exact (ChargePoint_false_charges [("id", PInt 4); ("charges", PNone)] (PInt 4)
           eq_refl eq_refl).
Defined.

(** X13.  A "charges" value that is true but not a list (a number, a
    non-empty string, a non-empty mapping, a datetime) makes
    [ChargePoint.from_dict] raise [TypeError], whether or not the mapping
    has its "id": the charges are decoded before "id" is read. *)
Theorem ChargePoint_charges_not_a_list (d : dict) (v : pyval) :
  dict_lookup "charges" d = Some v -> truthy v = true -> is_list v = false ->
  ChargePoint.from_dict (PDict d) = Raise TypeError.
Proof.
  intros Hv Ht Hl.
  rewrite ChargePoint_from_dict_dict, (charges_of_not_a_list d v Hv Ht Hl).
  reflexivity.
Qed.

(** A string for the charges, in a mapping without id. *)
Lemma ChargePoint_charges_not_a_list_witness :
  dict_lookup "charges" [("charges", PStr "none")] = Some (PStr "none") /\
  truthy (PStr "none") = true /\ is_list (PStr "none") = false /\
  ChargePoint.from_dict (PDict [("charges", PStr "none")]) = Raise TypeError.
Proof.
  split; [reflexivity |]. split; [reflexivity |]. split; [reflexivity |].
  exact (ChargePoint_charges_not_a_list [("charges", PStr "none")] (PStr "none")
           eq_refl eq_refl eq_refl).
Defined.

(** X14.  In a "charges" list the first element that does not decode as a
    Charge decides the outcome: [ChargePoint.from_dict] raises that
    element's exception, whatever the elements after it are and whether or
    not the mapping has its "id". *)
Theorem ChargePoint_first_bad_charge
    (d : dict) (ms : list dict) (v : pyval) (rest : list pyval) (e : exn) :
  dict_lookup "charges" d = Some (PList (map PDict ms ++ v :: rest)) ->
  forallb (has_key "id") ms = true ->
  Charge.from_dict v = Raise e ->
  ChargePoint.from_dict (PDict d) = Raise e.
Proof.
  intros Hch Hms Hv. rewrite ChargePoint_from_dict_dict.
  assert (Hc : charges_of d = Raise e).
  { unfold charges_of, dict_get. rewrite Hch. cbv zeta.
    assert (Ht : truthy (PList (map PDict ms ++ v :: rest)) = true)
      by (destruct ms; reflexivity).
    rewrite Ht. cbn [iterate bind].
    pose proof (comprehension_charges ms) as Hcs. rewrite Hms in Hcs.
    destruct Hcs as (cs & Hcs & _).
    exact (comprehension_first_failure _ _ cs v rest e Hcs Hv). }
  rewrite Hc. reflexivity.
Qed.

(** A decodable charge, then a number, then a charge without id. *)
Lemma ChargePoint_first_bad_charge_witness :
  dict_lookup "charges"
    [("id", PInt 1);
     ("charges", PList (map PDict [[("id", PInt 7)]] ++ PInt 0 :: [PDict []]))]
  = Some (PList (map PDict [[("id", PInt 7)]] ++ PInt 0 :: [PDict []])) /\
  forallb (has_key "id") [[("id", PInt 7)]] = true /\
  Charge.from_dict (PInt 0) = Raise TypeError /\
  ChargePoint.from_dict
    (PDict [("id", PInt 1);
            ("charges", PList (map PDict [[("id", PInt 7)]] ++ PInt 0 :: [PDict []]))])
  = Raise TypeError.
Proof.
  split; [reflexivity |]. split; [reflexivity |]. split; [reflexivity |].
  exact (ChargePoint_first_bad_charge
           [("id", PInt 1);
            ("charges", PList (map PDict [[("id", PInt 7)]] ++ PInt 0 :: [PDict []]))]
           [[("id", PInt 7)]] (PInt 0) [PDict []] TypeError
           eq_refl eq_refl eq_refl).
Defined.

(** X15.  The entity decoders ignore keys they do not know: adding a
    binding for such a key to a mapping changes neither the decoded record
    nor the exception. *)
Theorem unknown_keys_ignored (k : string) (v : pyval) (d : dict) :
  (mentions k keys_of_Charge = false ->
   Charge.from_dict (PDict ((k, v) :: d)) = Charge.from_dict (PDict d)) /\
  (mentions k keys_of_Wallet = false ->
   Wallet.from_dict (PDict ((k, v) :: d)) = Wallet.from_dict (PDict d)) /\
  (mentions k keys_of_WalletTransaction = false ->
   WalletTransaction.from_dict (PDict ((k, v) :: d))
   = WalletTransaction.from_dict (PDict d)) /\
  (mentions k keys_of_ChargePoint = false ->
   ChargePoint.from_dict (PDict ((k, v) :: d)) = ChargePoint.from_dict (PDict d)) /\
  (mentions k keys_of_TokenResponse = false ->
   TokenResponse.from_dict (PDict ((k, v) :: d)) = TokenResponse.from_dict (PDict d)).
Proof.
  split; [| split; [| split; [| split]]]; intros H.
  - rewrite !Charge_from_dict_dict. unfold dict_get.
    unfold keys_of_Charge, instant_keys_of_Charge in H.
    skip_unknown_key H. reflexivity.
  - rewrite !Wallet_from_dict_dict. unfold dict_get.
    unfold keys_of_Wallet in H.
    skip_unknown_key H. reflexivity.
  - rewrite !WalletTransaction_from_dict_dict. unfold dict_get.
    unfold keys_of_WalletTransaction, instant_keys_of_WalletTransaction in H.
    cbn [app] in H. skip_unknown_key H. reflexivity.
  - rewrite !ChargePoint_from_dict_dict. unfold charges_of, dict_get.
    unfold keys_of_ChargePoint in H.
    skip_unknown_key H. reflexivity.
  - rewrite !TokenResponse_from_dict_dict. unfold getitem, dict_get.
    unfold keys_of_TokenResponse, required_keys_of_TokenResponse in H.
    cbn [app] in H. skip_unknown_key H. reflexivity.
Qed.

(** A Charge mapping with a key of the ChargePoint. *)
Lemma unknown_keys_ignored_witness :
  mentions "brandName" keys_of_Charge = false /\
  Charge.from_dict (PDict [("brandName", PStr "Zaptec"); ("id", PInt 2)])
  = Charge.from_dict (PDict [("id", PInt 2)]).
Proof.
  split; [reflexivity |].
  exact (proj1 (unknown_keys_ignored "brandName" (PStr "Zaptec") [("id", PInt 2)])
           eq_refl).
Defined.

(** X16.  In both enumerations the members have distinct values, so that a
    member is found again from its value and a value names at most one
    member; a string that is no member's value is rejected.  The only value
    that the two enumerations share is "reserved". *)
Theorem enumeration_values :
  (forall m, ChargeState.of_value (ChargeState.value m) = Ok m) /\
  (forall v, ChargeState.of_value v
             = Raise ValueError \/
             exists m, ChargeState.of_value v = Ok m /\ ChargeState.value m = v) /\
  (forall m, WalletTransactionState.of_value (WalletTransactionState.value m) = Ok m) /\
  (forall v, WalletTransactionState.of_value v
             = Raise ValueError \/
             exists m, WalletTransactionState.of_value v = Ok m /\
                       WalletTransactionState.value m = v) /\
  (forall m m', ChargeState.value m = WalletTransactionState.value m' ->
     m = ChargeState.RESERVED /\ m' = WalletTransactionState.RESERVED).
Proof.
  split; [| split; [| split; [| split]]].
  - intros []; reflexivity.
  - intros v. unfold ChargeState.of_value.
    destruct (find _ ChargeState.members) as [m |] eqn:Ef; [right | left; reflexivity].
    exists m. split; [reflexivity |].
    apply find_some in Ef. now apply String.eqb_eq.
  - intros []; reflexivity.
  - intros v. unfold WalletTransactionState.of_value.
    destruct (find _ WalletTransactionState.members) as [m |] eqn:Ef;
      [right | left; reflexivity].
    exists m. split; [reflexivity |].
    apply find_some in Ef. now apply String.eqb_eq.
  - intros [] []; simpl; intros H; try discriminate H; split; reflexivity.
Qed.

(** The member that both enumerations have. *)
Lemma enumeration_values_witness :
  ChargeState.value ChargeState.RESERVED
  = WalletTransactionState.value WalletTransactionState.RESERVED /\
  ChargeState.RESERVED = ChargeState.RESERVED.
Proof.
  split; [reflexivity |].
  exact (proj1 (proj2 (proj2 (proj2 (proj2 enumeration_values)))
                  ChargeState.RESERVED WalletTransactionState.RESERVED eq_refl)).
Defined.
